(** * Terra::Random::RandomGenerator — a shallow embedding

    The generator of [random_generator.cpp] blends octets read from the
    operating system with octets of a seeded [std::mt19937], one XOR per
    output position.  The embedding follows the translation unit function by
    function:

    - octets and machine integers are [Z], conversions to a narrower unsigned
      type are written out ([uint8], [uint32]);
    - the three [#if] branches are selected by a [Platform] value;
    - everything outside the translation unit is an interface: the C++
      library's engine and distribution ([StdRandom]) and the operating
      system ([OS]);
    - the member functions run in a state monad over the object and the
      history of system calls. *)

From Stdlib Require Import String ZArith List Bool Lia.
Import ListNotations.
Local Open Scope Z_scope.

(** ** Machine integers *)

(** Conversion to [std::uint8_t]. *)
Definition uint8 (z : Z) : Z := z mod 2 ^ 8.

(** Conversion to [unsigned int] / [ULONG] (32 bits on every target of the
    source). *)
Definition uint32 (z : Z) : Z := z mod 2 ^ 32.

(** [a ^= b] on a [std::uint8_t]: the operands are promoted, XORed, and the
    result is converted back. *)
Definition xor8 (a b : Z) : Z := uint8 (Z.lxor a b).

Definition is_octet (z : Z) : Prop := 0 <= z <= 255.

(** ** Buffers

    A [std::span<std::uint8_t>] is modelled by the octets it views; a callee
    that writes through the span returns the new contents. *)

(** [store buf off data]: the block write [memcpy(buf + off, data, |data|)],
    clipped to the extent of [buf]. *)
Fixpoint store (buf : list Z) (off : nat) (data : list Z) : list Z :=
  match buf with
  | [] => []
  | b :: buf' =>
      match off with
      | S off' => b :: store buf' off' data
      | O =>
          match data with
          | [] => b :: buf'
          | d :: data' => d :: store buf' O data'
          end
      end
  end.

(** The first [n] octets an external writer delivers. *)
Definition deliver (bytes : nat -> Z) (n : nat) : list Z :=
  map bytes (seq 0 n).

(** Position-wise [octets[i] ^ pads[i]]. *)
Definition xor_with (octets pads : list Z) : list Z :=
  map (fun op => xor8 (fst op) (snd op)) (combine octets pads).

(** ** Compile-time platform selection *)

Inductive Platform : Type :=
| Posix   (* defined(__linux__) || defined(__APPLE__) || defined(__FreeBSD__) *)
| Win32   (* defined(_WIN32) *)
| Other.  (* neither: no operating-system source is compiled in *)

(** ** The operating system *)

Inductive OpenFlag : Type := O_NONBLOCK | O_RDONLY | O_CLOEXEC.

(** One entry per call to the system or to the seeding primitives, with its
    arguments and its answer.  [EvRead] also records, as ghost data, the
    offset of the pointer argument from the start of the caller's buffer.
    Memory allocation is answered by the environment too ([os_vector]) but
    leaves no entry. *)
Inductive Event : Type :=
| EvOpen (path : string) (flags : list OpenFlag) (fd : Z)
| EvRead (fd : Z) (offset : nat) (count : nat) (result : Z)
| EvClose (fd : Z)
| EvBCryptGenRandom (cbBuffer : Z) (status : Z)
| EvRandomDevice (value : option Z)
| EvClockNow (ticks : Z).

Definition Trace : Type := list Event.

(** The exceptions the translation unit can meet, and the outcome of a call
    that may throw. *)
Inductive Exception : Type :=
| length_error   (* std::length_error: more elements than max_size() *)
| bad_alloc.     (* std::bad_alloc: the allocation failed *)

Inductive Outcome (A : Type) : Type :=
| Returned (a : A)
| Thrown (e : Exception).

Arguments Returned {A} a.
Arguments Thrown {A} e.

(** The system answers a call as a function of the history and of the
    arguments; quantifying over [OS] quantifies over every behaviour of the
    environment.

    - [os_read h fd count]: the [ssize_t] result of [read] and the octets the
      kernel copies out (the first [result] of them when [result > 0]);
    - [os_BCryptGenRandom h cb]: the [NTSTATUS] and the octets written on
      success;
    - [os_vector h count]: the construction of a
      [std::vector<std::uint8_t>] of [count > 0] elements, [None] when it
      succeeds, the exception it throws otherwise;
    - [os_random_device h]: the value of [std::random_device()()], [None]
      when it throws;
    - [os_clock_now h]:
      [std::chrono::system_clock::now().time_since_epoch().count()]. *)
Record OS : Type := mkOS {
  os_open : Trace -> string -> list OpenFlag -> Z;
  os_read : Trace -> Z -> nat -> Z * (nat -> Z);
  os_BCryptGenRandom : Trace -> Z -> Z * (nat -> Z);
  os_vector : Trace -> nat -> option Exception;
  os_random_device : Trace -> option Z;
  os_clock_now : Trace -> Z
}.

(** POSIX: [read] transfers at most [count] octets. *)
Definition read_bounded (os : OS) : Prop :=
  forall h fd count, fst (os_read os h fd count) <= Z.of_nat count.

Definition STATUS_SUCCESS : Z := 0.

(** What [std::vector<std::uint8_t> octets(count)] throws, if anything: a
    vector of no element allocates nothing and cannot throw. *)
Definition vector_throws (os : OS) (h : Trace) (count : nat)
  : option Exception :=
  if Nat.eqb count 0 then None else os_vector os h count.

(** The vector on an LP64 system: more than [max_size() = 2^63 - 1] elements
    is a [length_error], more octets than the [2^47] of a user address space
    a [bad_alloc]. *)
Definition lp64_vector (count : nat) : option Exception :=
  if 2 ^ 63 - 1 <? Z.of_nat count then Some length_error
  else if 2 ^ 47 <? Z.of_nat count then Some bad_alloc
  else None.

(** ** The C++ library: engine and distribution

    [std::mt19937] and [std::uniform_int_distribution] are not part of the
    repository.  The engine is a state type with its seeding function (the
    converting constructor and [seed(value)] set the whole state from the
    value), and invoking a distribution with bounds [(a, b)] on an engine
    yields a value and the next engine state. *)
Class StdRandom (Engine : Type) : Type := {
  engine_seed : Z -> Engine;
  dist_invoke : Z * Z -> Engine -> Z * Engine
}.

(** [rand.dist.uni.int]: the value lies between the bounds. *)
Definition dist_in_bounds {Engine} `{StdRandom Engine} : Prop :=
  forall a b e, a <= b -> a <= fst (dist_invoke (a, b) e) <= b.

(** An invocation never leaves the engine as it found it. *)
Definition engine_advances {Engine} `{StdRandom Engine} : Prop :=
  forall d e, snd (dist_invoke d e) <> e.

(** The engine state after [n] invocations of the distribution, and the
    values they yield, oldest first. *)
Fixpoint engine_after {Engine} `{StdRandom Engine}
    (d : Z * Z) (n : nat) (e : Engine) : Engine :=
  match n with
  | O => e
  | S n' => engine_after d n' (snd (dist_invoke d e))
  end.

Fixpoint draws {Engine} `{StdRandom Engine}
    (d : Z * Z) (n : nat) (e : Engine) : list Z :=
  match n with
  | O => []
  | S n' => uint8 (fst (dist_invoke d e)) :: draws d n' (snd (dist_invoke d e))
  end.

(** ** The object and its member functions *)

Section Generator.

Context {Engine : Type} `{RandomLib : StdRandom Engine}.

(** The data members of [class RandomGenerator].  [random_fd] and
    [pseudo_random_fd] are declared on [Posix] builds only; on the other
    builds no member function mentions them and the model carries [-1]. *)
Record RandomGenerator : Type := mkGenerator {
  pseudo_random_only : bool;
  distribution : Z * Z;
  random_engine : Engine;
  random_fd : Z;
  pseudo_random_fd : Z
}.

(** What a member function can change: the object and the history of calls
    to the system. *)
Record State : Type := mkState {
  self : RandomGenerator;
  trace : Trace
}.

Definition M (A : Type) : Type := State -> A * State.

Definition ret {A} (a : A) : M A := fun s => (a, s).

Definition bind {A B} (m : M A) (k : A -> M B) : M B :=
  fun s => let (a, s') := m s in k a s'.

Notation "x <- m ;; k" := (bind m (fun x => k))
  (at level 61, m at next level, right associativity).
Notation "' p <- m ;; k" := (bind m (fun x => let 'p := x in k))
  (at level 61, p pattern, m at next level, right associativity).
Notation "m ;;; k" := (bind m (fun _ => k))
  (at level 61, right associativity).

Definition this : M RandomGenerator := fun s => (self s, s).

(** The object with its engine member replaced. *)
Definition with_random_engine (g : RandomGenerator) (e : Engine)
  : RandomGenerator :=
  mkGenerator (pseudo_random_only g) (distribution g) e
              (random_fd g) (pseudo_random_fd g).

(** Two objects that differ at most in their engine. *)
Definition same_configuration (g g' : RandomGenerator) : Prop :=
  pseudo_random_only g' = pseudo_random_only g
  /\ distribution g' = distribution g
  /\ random_fd g' = random_fd g
  /\ pseudo_random_fd g' = pseudo_random_fd g.

(** The state after [n] invocations of the object's distribution on its
    engine, and the octets they yield. *)
Definition drawn (n : nat) (s : State) : State :=
  mkState
    (with_random_engine (self s)
       (engine_after (distribution (self s)) n (random_engine (self s))))
    (trace s).

Definition pads (n : nat) (s : State) : list Z :=
  draws (distribution (self s)) n (random_engine (self s)).

Definition set_random_engine (e : Engine) : M unit :=
  fun s => (tt, mkState (with_random_engine (self s) e) (trace s)).

Definition emit (ev : Event) : M unit :=
  fun s => (tt, mkState (self s) (trace s ++ [ev])).

Variable os : OS.

(** [read(fd, buffer.data() + offset, count)]. *)
Definition sys_read (fd : Z) (offset count : nat) : M (Z * (nat -> Z)) :=
  fun s =>
    let answer := os_read os (trace s) fd count in
    (answer, mkState (self s) (trace s ++ [EvRead fd offset count (fst answer)])).

(** [close(fd)]. *)
Definition sys_close (fd : Z) : M unit := emit (EvClose fd).

(** [BCryptGenRandom(NULL, buffer, cbBuffer, BCRYPT_USE_SYSTEM_PREFERRED_RNG)]. *)
Definition BCryptGenRandom (cbBuffer : Z) : M (Z * (nat -> Z)) :=
  fun s =>
    let answer := os_BCryptGenRandom os (trace s) cbBuffer in
    (answer,
     mkState (self s) (trace s ++ [EvBCryptGenRandom cbBuffer (fst answer)])).

Variable platform : Platform.

(** [RandomGenerator::GetPseudoRandomOctet]: [return distribution(random_engine);]
    with the conversion of the distribution's result type to [std::uint8_t]. *)
Definition GetPseudoRandomOctet : M Z :=
  g <- this ;;
  let (value, engine) := dist_invoke (distribution g) (random_engine g) in
  set_random_engine engine ;;;
  ret (uint8 value).

(** [RandomGenerator::SourceRandomOctets], the branch of each platform.  The
    result is the count and the contents of the caller's buffer on return. *)
Definition SourceRandomOctets_posix (buffer : list Z) : M (Z * list Z) :=
  g <- this ;;
  let octets_sourced := 0 in
  '(octets_sourced, buffer) <-
    (if 0 <=? random_fd g then
       '(result, bytes) <- sys_read (random_fd g) 0 (length buffer) ;;
       if 0 <? result
       then ret (octets_sourced + result,
                 store buffer 0 (deliver bytes (Z.to_nat result)))
       else ret (octets_sourced, buffer)
     else ret (octets_sourced, buffer)) ;;
  if (octets_sourced <? Z.of_nat (length buffer)) && (0 <=? pseudo_random_fd g)
  then
    '(result, bytes) <- sys_read (pseudo_random_fd g)
                                 (Z.to_nat octets_sourced)
                                 (length buffer - Z.to_nat octets_sourced) ;;
    if 0 <? result
    then ret (octets_sourced + result,
              store buffer (Z.to_nat octets_sourced)
                    (deliver bytes (Z.to_nat result)))
    else ret (octets_sourced, buffer)
  else ret (octets_sourced, buffer).

Definition SourceRandomOctets_win32 (buffer : list Z) : M (Z * list Z) :=
  let octets_sourced := 0 in
  let cbBuffer := uint32 (Z.of_nat (length buffer)) in
  '(status, bytes) <- BCryptGenRandom cbBuffer ;;
  if status =? STATUS_SUCCESS
  then ret (Z.of_nat (length buffer),
            store buffer 0 (deliver bytes (Z.to_nat cbBuffer)))
  else ret (octets_sourced, buffer).

Definition SourceRandomOctets (buffer : list Z) : M (Z * list Z) :=
  g <- this ;;
  let octets_sourced := 0 in
  if (Nat.eqb (length buffer) 0) || pseudo_random_only g
  then ret (0, buffer)
  else
    match platform with
    | Posix => SourceRandomOctets_posix buffer
    | Win32 => SourceRandomOctets_win32 buffer
    | Other => ret (octets_sourced, buffer)
    end.

(** [RandomGenerator::GetRandomOctet]. *)
Definition GetRandomOctet : M Z :=
  let octet := 0 in
  '(_, buffer) <- SourceRandomOctets [octet] ;;
  let octet := nth 0 buffer 0 in
  p <- GetPseudoRandomOctet ;;
  let octet := xor8 octet p in
  ret octet.

(** [for (std::size_t i = 0; i < count; i++) octets[i] ^= GetPseudoRandomOctet();]
    entered at index [i] with [todo = count - i] iterations left. *)
Fixpoint xor_indexed (todo i : nat) (octets : list Z) : M (list Z) :=
  match todo with
  | O => ret octets
  | S todo' =>
      p <- GetPseudoRandomOctet ;;
      xor_indexed todo' (S i) (store octets i [xor8 (nth i octets 0) p])
  end.

(** [for (auto &octet : octets) octet ^= GetPseudoRandomOctet();] *)
Fixpoint xor_each (octets : list Z) : M (list Z) :=
  match octets with
  | [] => ret []
  | octet :: rest =>
      p <- GetPseudoRandomOctet ;;
      rest' <- xor_each rest ;;
      ret (xor8 octet p :: rest')
  end.

(** [std::vector<std::uint8_t> octets(count);]: [count] value-initialised
    octets, or the exception of the constructor. *)
Definition new_vector (count : nat) : M (Outcome (list Z)) :=
  fun s =>
    (match vector_throws os (trace s) count with
     | None => Returned (repeat 0 count)
     | Some e => Thrown e
     end, s).

(** [RandomGenerator::GetRandomOctets(std::size_t count)], the one retrieval
    function that is not [noexcept]: an exception of the vector's
    constructor leaves the function before anything else is done. *)
Definition GetRandomOctets (count : nat) : M (Outcome (list Z)) :=
  constructed <- new_vector count ;;
  match constructed with
  | Thrown e => ret (Thrown e)
  | Returned octets =>
      if Nat.eqb count 0 then ret (Returned [])
      else
        '(_, octets) <- SourceRandomOctets octets ;;
        octets <- xor_indexed count 0 octets ;;
        ret (Returned octets)
  end.

(** [RandomGenerator::GetRandomOctets(std::span<std::uint8_t> octets)]; the
    result is the contents of the caller's buffer on return. *)
Definition GetRandomOctets_span (octets : list Z) : M (list Z) :=
  if Nat.eqb (length octets) 0 then ret octets
  else
    '(_, octets) <- SourceRandomOctets octets ;;
    xor_each octets.

(** [RandomGenerator::~RandomGenerator]. *)
Definition RandomGenerator_dtor : M unit :=
  match platform with
  | Posix =>
      g <- this ;;
      (if 0 <=? random_fd g then sys_close (random_fd g) else ret tt) ;;;
      (if 0 <=? pseudo_random_fd g then sys_close (pseudo_random_fd g)
       else ret tt)
  | _ => ret tt
  end.

(** Calls made while the object is being constructed; there is no object
    yet, only the history. *)
Definition clock_now (h : Trace) : Z * Trace :=
  let ticks := os_clock_now os h in (ticks, h ++ [EvClockNow ticks]).

Definition sys_open (path : string) (flags : list OpenFlag) (h : Trace)
  : Z * Trace :=
  let fd := os_open os h path flags in (fd, h ++ [EvOpen path flags fd]).

Definition random_device (h : Trace) : option Z * Trace :=
  let value := os_random_device os h in (value, h ++ [EvRandomDevice value]).

(** [RandomGenerator::RandomGenerator(bool pseudo_random_only)]: the member
    initialisers in declaration order, the descriptor block, then the
    [try]/[catch (...)] around the seeding; [None] from [random_device] is the
    exception that enters the handler.  The conversion of the clock count to
    [std::random_device::result_type] is [uint32]. *)
Definition RandomGenerator_ctor (pseudo_random_only : bool) (h : Trace)
  : State :=
  let distribution := (0, 255) in
  let (ticks, h) := clock_now h in
  let random_engine := engine_seed (uint32 ticks) in
  let '(random_fd, pseudo_random_fd, h) :=
    match platform with
    | Posix =>
        if pseudo_random_only then (-1, -1, h)
        else
          let (random_fd, h) :=
            sys_open "/dev/random" [O_NONBLOCK; O_RDONLY; O_CLOEXEC] h in
          let (pseudo_random_fd, h) :=
            sys_open "/dev/urandom" [O_NONBLOCK; O_RDONLY; O_CLOEXEC] h in
          (random_fd, pseudo_random_fd, h)
    | _ => (-1, -1, h)
    end in
  let (seed, h) := random_device h in
  match seed with
  | Some value =>
      let random_engine := engine_seed value in
      mkState (mkGenerator pseudo_random_only distribution random_engine
                           random_fd pseudo_random_fd) h
  | None =>
      let (ticks, h) := clock_now h in
      let random_engine := engine_seed (uint32 ticks) in
      mkState (mkGenerator pseudo_random_only distribution random_engine
                           random_fd pseudo_random_fd) h
  end.

(** ** Use of an object over its lifetime *)

(** The member functions a caller (or a derived class, for the protected
    ones) can invoke, with their arguments. *)
Inductive Call : Type :=
| CallGetRandomOctet
| CallGetRandomOctets (count : nat)
| CallGetRandomOctetsSpan (octets : list Z)
| CallGetPseudoRandomOctet
| CallSourceRandomOctets (buffer : list Z).

(** The octets a call hands back, or the exception it leaves with; the
    caller goes on after an exception. *)
Definition run_call (c : Call) : M (Outcome (list Z)) :=
  match c with
  | CallGetRandomOctet => octet <- GetRandomOctet ;; ret (Returned [octet])
  | CallGetRandomOctets count => GetRandomOctets count
  | CallGetRandomOctetsSpan octets =>
      octets <- GetRandomOctets_span octets ;; ret (Returned octets)
  | CallGetPseudoRandomOctet =>
      octet <- GetPseudoRandomOctet ;; ret (Returned [octet])
  | CallSourceRandomOctets buffer =>
      '(_, buffer) <- SourceRandomOctets buffer ;; ret (Returned buffer)
  end.

Fixpoint run_calls (cs : list Call) : M (list (Outcome (list Z))) :=
  match cs with
  | [] => ret []
  | c :: cs' =>
      r <- run_call c ;;
      rs <- run_calls cs' ;;
      ret (r :: rs)
  end.

(** Construction, a sequence of calls, destruction. *)
Definition lifetime (pseudo_random_only : bool) (cs : list Call) (h : Trace)
  : list (Outcome (list Z)) * State :=
  (rs <- run_calls cs ;; RandomGenerator_dtor ;;; ret rs)
    (RandomGenerator_ctor pseudo_random_only h).

(** [n] successive calls of [GetRandomOctet], results oldest first. *)
Fixpoint GetRandomOctet_times (n : nat) : M (list Z) :=
  match n with
  | O => ret []
  | S n' =>
      octet <- GetRandomOctet ;;
      rest <- GetRandomOctet_times n' ;;
      ret (octet :: rest)
  end.

(** Events that touch an operating-system entropy source. *)
Definition is_device_event (ev : Event) : bool :=
  match ev with
  | EvOpen _ _ _ | EvRead _ _ _ _ | EvClose _ | EvBCryptGenRandom _ _ => true
  | EvRandomDevice _ | EvClockNow _ => false
  end.

Definition device_events (h : Trace) : Trace := filter is_device_event h.

End Generator.

Arguments RandomGenerator : clear implicits.
Arguments State : clear implicits.
Arguments M : clear implicits.

(** ** An instance of the library: [std::mt19937]

    The engine as the C++ standard fixes it ([rand.eng.mers]: word size 32,
    state size 624, shift size 397), in the array-and-position form of
    libstdc++, so that the member functions can be run on concrete inputs. *)
Module MT19937.

Record engine : Type := mkEngine {
  M_x : list Z;   (* the 624 state words *)
  M_p : nat       (* position of the next word to temper *)
}.

Fixpoint seed_words (todo : nat) (i : Z) (prev : Z) : list Z :=
  match todo with
  | O => []
  | S todo' =>
      let x := Z.lxor prev (Z.shiftr prev 30) in
      let x := uint32 (x * 1812433253 + i) in
      x :: seed_words todo' (i + 1) x
  end.

(** [mersenne_twister_engine::seed(result_type)]. *)
Definition seed (value : Z) : engine :=
  let x0 := uint32 value in
  mkEngine (x0 :: seed_words 623 1 x0) 624.

(** [_M_gen_rand]: the in-place regeneration of the state words, entered at
    word [k] with [todo] words left. *)
Fixpoint gen_rand (todo k : nat) (x : list Z) : list Z :=
  match todo with
  | O => x
  | S todo' =>
      let y := Z.lor (Z.land (nth k x 0) 0x80000000)
                     (Z.land (nth ((k + 1) mod 624) x 0) 0x7fffffff) in
      let v := Z.lxor (Z.lxor (nth ((k + 397) mod 624) x 0) (Z.shiftr y 1))
                      (if Z.odd y then 0x9908b0df else 0) in
      gen_rand todo' (S k) (store x k [v])
  end.

(** [operator()]: regenerate when the words are used up, then temper the
    next word. *)
Definition next (e : engine) : Z * engine :=
  let e := if (624 <=? M_p e)%nat then mkEngine (gen_rand 624 0 (M_x e)) 0
           else e in
  let z := uint32 (nth (M_p e) (M_x e) 0) in
  let z := Z.lxor z (Z.land (Z.shiftr z 11) 0xffffffff) in
  let z := Z.lxor z (Z.land (Z.shiftl z 7) 0x9d2c5680) in
  let z := Z.lxor z (Z.land (Z.shiftl z 15) 0xefc60000) in
  let z := Z.lxor z (Z.shiftr z 18) in
  (z, mkEngine (M_x e) (S (M_p e))).

(** [uniform_int_distribution(a, b)(engine)] as libstdc++ computes it for a
    32-bit engine: the high word of the engine output times the size of the
    range.  The library draws again when the low word of the product is
    below [2^32 mod range]; for a range that divides [2^32], as the 256
    values of [(0, 255)] do, that bound is 0 and one output is always
    enough, which is the case written here. *)
Definition uniform_int (d : Z * Z) (e : engine) : Z * engine :=
  let (a, b) := d in
  let (z, e') := next e in
  (a + Z.shiftr (z * (b - a + 1)) 32, e').

End MT19937.

#[export] Instance MT19937_StdRandom : StdRandom MT19937.engine := {
  engine_seed := MT19937.seed;
  dist_invoke := MT19937.uniform_int
}.

(** ** Two operating systems to run the model on *)

(** No entropy device can be opened, every read fails, the system generator
    reports an error, and [std::random_device] throws. *)
Definition os_absent : OS := {|
  os_open := fun _ _ _ => -1;
  os_read := fun _ _ _ => (-1, fun _ => 0);
  os_BCryptGenRandom := fun _ _ => (0xC0000001, fun _ => 0);
  os_vector := fun _ => lp64_vector;
  os_random_device := fun _ => None;
  os_clock_now := fun h => 1700000000000000000 + Z.of_nat (length h)
|}.

(** Both devices open (descriptors 3 and 4); the true-random device yields
    at most two octets per read, the pseudo-random device as many as asked;
    the system generator succeeds. *)
Definition os_short : OS := {|
  os_open := fun _ path _ =>
    if String.eqb path "/dev/random" then 3
    else if String.eqb path "/dev/urandom" then 4 else -1;
  os_read := fun _ fd count =>
    if fd =? 3 then (Z.min 2 (Z.of_nat count), fun i => 0xA0 + Z.of_nat i)
    else if fd =? 4 then (Z.of_nat count, fun i => 0x50 + Z.of_nat i)
    else (-1, fun _ => 0);
  os_BCryptGenRandom := fun _ _ => (STATUS_SUCCESS, fun i => 0x70 + Z.of_nat i);
  os_vector := fun _ => lp64_vector;
  os_random_device := fun _ => Some 5489;
  os_clock_now := fun h => 1700000000000000000 + Z.of_nat (length h)
|}.

(** A mixed-mode and a pseudo-random-only object on the engine instance. *)
Definition mixed_posix : State MT19937.engine :=
  RandomGenerator_ctor os_short Posix false [].

Definition mixed_win32 : State MT19937.engine :=
  RandomGenerator_ctor os_short Win32 false [].

Definition prng_only : State MT19937.engine :=
  RandomGenerator_ctor os_absent Posix true [].


(** A sequence of calls that goes through every member function. *)
Definition every_call : list Call :=
  [CallGetRandomOctet; CallGetRandomOctets 3; CallGetRandomOctetsSpan [1; 2];
   CallGetPseudoRandomOctet; CallSourceRandomOctets [0; 0]].

(** ** What an object is seen to do *)

Section Observations.

Context {Engine : Type} `{RandomLib : StdRandom Engine}.

(** The reader has nothing to read from: the object is in
    pseudo-random-only mode, or the build has no operating-system branch, or
    it is a POSIX build and neither descriptor is held. *)
Definition no_source (platform : Platform) (g : RandomGenerator Engine)
  : bool :=
  pseudo_random_only g
  || match platform with
     | Posix => (random_fd g <? 0) && (pseudo_random_fd g <? 0)
     | Win32 => false
     | Other => true
     end.

(** The number of octets a call handed out: those it returned, none when it
    left with an exception; the reader hands out the system's octets, not the
    engine's. *)
Definition handed_out (c : Call) (r : Outcome (list Z)) : nat :=
  match c, r with
  | CallSourceRandomOctets _, _ => 0
  | _, Returned octets => length octets
  | _, Thrown _ => 0
  end.

Fixpoint handed_out_all (cs : list Call) (rs : list (Outcome (list Z))) : nat :=
  match cs, rs with
  | c :: cs', r :: rs' => (handed_out c r + handed_out_all cs' rs')%nat
  | _, _ => 0%nat
  end.

(** The size of the largest [std::size_t] on an LP64 or LLP64 system. *)
Definition SIZE_MAX : nat := Z.to_nat (2 ^ 64 - 1).

(** The descriptors the destructor has to close. *)
Definition held (fd : Z) : list Z := if 0 <=? fd then [fd] else [].

Definition closes_of (g : RandomGenerator Engine) : Trace :=
  map EvClose (held (random_fd g) ++ held (pseudo_random_fd g)).

Definition is_read (ev : Event) : bool :=
  match ev with
  | EvRead _ _ _ _ => true
  | _ => false
  end.

(** A request for octets, by either interface. *)
Definition is_request (ev : Event) : bool :=
  match ev with
  | EvRead _ _ _ _ | EvBCryptGenRandom _ _ => true
  | _ => false
  end.

(** The length of the buffer a call hands to the reader. *)
Definition buffer_of_call (c : Call) : nat :=
  match c with
  | CallGetRandomOctet => 1
  | CallGetRandomOctets count => count
  | CallGetRandomOctetsSpan octets => length octets
  | CallGetPseudoRandomOctet => 0
  | CallSourceRandomOctets buffer => length buffer
  end.

(** A request to fill part of a buffer of [n] octets that stays inside it:
    a [read] on a descriptor the object holds, for at least one octet, that
    ends at the end of the buffer; or a [BCryptGenRandom] for at most [n]
    octets. *)
Definition request_in_bounds (g : RandomGenerator Engine) (n : nat)
    (ev : Event) : bool :=
  match ev with
  | EvRead fd offset count _ =>
      (0 <=? fd)
      && ((fd =? random_fd g) || (fd =? pseudo_random_fd g))
      && Nat.ltb 0 count
      && Nat.eqb (offset + count) n
  | EvBCryptGenRandom cbBuffer _ =>
      (0 <=? cbBuffer) && (cbBuffer <=? Z.of_nat n)
  | _ => false
  end.

End Observations.

(** A POSIX system on which neither device can be opened but
    [std::random_device] works. *)
Definition os_no_devices : OS := {|
  os_open := fun _ _ _ => -1;
  os_read := fun _ _ _ => (-1, fun _ => 0);
  os_BCryptGenRandom := fun _ _ => (0xC0000001, fun _ => 0);
  os_vector := fun _ => lp64_vector;
  os_random_device := fun _ => Some 5489;
  os_clock_now := fun h => 1700000000000000000 + Z.of_nat (length h)
|}.

(** * Properties *)

(** ** Block writes *)

Lemma store_length (buf : list Z) :
  forall off data, length (store buf off data) = length buf.
Proof.
  induction buf as [|b buf IH]; intros [|off] [|d data]; simpl;
    try rewrite IH; reflexivity.
Qed.

Lemma store_nil (buf : list Z) : forall off, store buf off [] = buf.
Proof.
  induction buf as [|b buf IH]; intros [|off]; simpl; try rewrite IH;
    reflexivity.
Qed.

Lemma store_app_at (l1 l2 data : list Z) :
  store (l1 ++ l2) (length l1) data = l1 ++ store l2 0 data.
Proof.
  induction l1 as [|x l1 IH]; simpl; [reflexivity|].
  now rewrite IH.
Qed.

Lemma store_cell (l1 l2 : list Z) (x v : Z) :
  store (l1 ++ x :: l2) (length l1) [v] = l1 ++ v :: l2.
Proof.
  rewrite store_app_at. simpl. now rewrite store_nil.
Qed.

Lemma nth_store_outside (buf : list Z) :
  forall off data i d,
    (i < off \/ off + length data <= i)%nat ->
    nth i (store buf off data) d = nth i buf d.
Proof.
  induction buf as [|b buf IH]; intros off data i d Hi; [reflexivity|].
  destruct off as [|off].
  - destruct data as [|x data]; [reflexivity|].
    destruct i as [|i]; simpl in *; [lia|].
    apply IH. right. simpl. lia.
  - destruct i as [|i]; simpl; [reflexivity|].
    apply IH. simpl in Hi. lia.
Qed.

Lemma store_whole (buf : list Z) :
  forall data, length data = length buf -> store buf 0 data = data.
Proof.
  induction buf as [|b buf IH]; intros [|d data] Hlen; simpl in *;
    try discriminate; [reflexivity|].
  f_equal. apply IH. congruence.
Qed.

Lemma deliver_length (bytes : nat -> Z) (n : nat) :
  length (deliver bytes n) = n.
Proof. unfold deliver. now rewrite length_map, length_seq. Qed.

Lemma xor_with_length (octets pads : list Z) :
  length pads = length octets -> length (xor_with octets pads) = length octets.
Proof.
  intros Hlen. unfold xor_with.
  rewrite length_map, length_combine. lia.
Qed.

Lemma nth_xor_with (octets : list Z) :
  forall pads i,
    (i < length octets)%nat -> length pads = length octets ->
    nth i (xor_with octets pads) 0 = xor8 (nth i octets 0) (nth i pads 0).
Proof.
  induction octets as [|o octets IH]; intros [|p pads] i Hi Hlen;
    simpl in *; try lia.
  destruct i as [|i]; [reflexivity|].
  apply IH; lia.
Qed.

Lemma uint8_is_octet (z : Z) : is_octet (uint8 z).
Proof.
  unfold is_octet, uint8.
  pose proof (Z.mod_pos_bound z (2 ^ 8) ltac:(lia)). lia.
Qed.

Lemma uint8_of_octet (z : Z) : is_octet z -> uint8 z = z.
Proof. unfold is_octet, uint8. intros Hz. apply Z.mod_small. lia. Qed.

Lemma xor8_is_octet (a b : Z) : is_octet (xor8 a b).
Proof. apply uint8_is_octet. Qed.

(** XOR onto a zero octet hands the other octet through. *)
Lemma xor8_0_l (p : Z) : is_octet p -> xor8 0 p = p.
Proof.
  intros Hp. unfold xor8. rewrite Z.lxor_0_l. now apply uint8_of_octet.
Qed.

Lemma xor_with_octets (octets pads : list Z) :
  Forall is_octet (xor_with octets pads).
Proof.
  unfold xor_with. apply Forall_forall. intros x Hx.
  apply in_map_iff in Hx. destruct Hx as (op & <- & _).
  apply xor8_is_octet.
Qed.

(** ** The pseudo-random contribution *)

Section Mixer.

Context {Engine : Type} `{RandomLib : StdRandom Engine}.

Lemma draws_length (d : Z * Z) (n : nat) :
  forall e : Engine, length (draws d n e) = n.
Proof. induction n as [|n IH]; intros e; simpl; [|rewrite IH]; reflexivity. Qed.

(** The [i]-th draw is the distribution invoked on the engine as [i] earlier
    draws left it. *)
Lemma nth_draws (d : Z * Z) (n : nat) :
  forall (e : Engine) i,
    (i < n)%nat ->
    nth i (draws d n e) 0 = uint8 (fst (dist_invoke d (engine_after d i e))).
Proof.
  induction n as [|n IH]; intros e i Hi; [lia|].
  destruct i as [|i]; simpl; [reflexivity|].
  apply IH. lia.
Qed.

(** One call: the value is the distribution's, converted to an octet; the
    engine is replaced by the one the invocation leaves; nothing else moves. *)
Lemma GetPseudoRandomOctet_run (s : State Engine) :
  GetPseudoRandomOctet s =
  (uint8 (fst (dist_invoke (distribution (self s)) (random_engine (self s)))),
   mkState
     (with_random_engine (self s)
        (snd (dist_invoke (distribution (self s)) (random_engine (self s)))))
     (trace s)).
Proof.
  unfold GetPseudoRandomOctet, bind, this, set_random_engine, ret.
  destruct (dist_invoke (distribution (self s)) (random_engine (self s)));
    reflexivity.
Qed.

Lemma drawn_0 (s : State Engine) : drawn 0 s = s.
Proof. destruct s as [[f d e r p] h]. reflexivity. Qed.

(** The range-[for] loop of the span overload. *)
Lemma xor_each_run (octets : list Z) :
  forall s,
    xor_each octets s =
    (xor_with octets
       (draws (distribution (self s)) (length octets) (random_engine (self s))),
     drawn (length octets) s).
Proof.
  induction octets as [|o octets IH]; intros s.
  - simpl. unfold ret. now rewrite drawn_0.
  - simpl. unfold bind at 1. rewrite GetPseudoRandomOctet_run.
    unfold bind at 1. rewrite IH. reflexivity.
Qed.

(** The indexed loop of the allocating overload, entered at [i = |done|],
    does to the rest of the vector what the range-[for] loop does. *)
Lemma xor_indexed_run (rest : list Z) :
  forall done s,
    xor_indexed (length rest) (length done) (done ++ rest) s =
    (done ++ fst (xor_each rest s), snd (xor_each rest s)).
Proof.
  induction rest as [|o rest IH]; intros done s.
  - reflexivity.
  - cbn [xor_indexed xor_each length]. unfold bind.
    rewrite GetPseudoRandomOctet_run. cbv beta iota.
    rewrite nth_middle, store_cell.
    replace (done ++ xor8 o _ :: rest)
      with ((done ++ [xor8 o
               (uint8 (fst (dist_invoke (distribution (self s))
                                        (random_engine (self s)))))]) ++ rest)
      by now rewrite <- app_assoc.
    replace (S (length done))
      with (length (done ++ [xor8 o
               (uint8 (fst (dist_invoke (distribution (self s))
                                        (random_engine (self s)))))]))
      by (rewrite length_app; simpl; lia).
    rewrite IH.
    destruct (xor_each rest _) as [r s'] eqn:E. unfold ret. simpl.
    now rewrite <- app_assoc.
Qed.

End Mixer.

(** ** The operating-system reader *)

Lemma deliver_0 (bytes : nat -> Z) : deliver bytes 0 = [].
Proof. reflexivity. Qed.

Ltac run_step := cbv beta zeta iota; cbn [self trace fst snd andb orb].

Create Rewrite HintDb buffers.
#[export] Hint Rewrite deliver_0 store_nil store_length Z.add_0_l Z.add_0_r
  : buffers.

Ltac tidy :=
  change (Z.to_nat 0) with O; autorewrite with buffers.

Ltac second_read os :=
  match goal with
  | |- context [?c && (0 <=? pseudo_random_fd ?g)] =>
      destruct (c && (0 <=? pseudo_random_fd g)); run_step;
      [ destruct (os_read os _ (pseudo_random_fd g) _) as [r2 b2]; run_step;
        destruct (0 <? r2); run_step; tidy; reflexivity
      | tidy; reflexivity ]
  end.

Section Reader.

Context {Engine : Type} `{RandomLib : StdRandom Engine}.
Variable os : OS.

(** The POSIX branch in closed form: what each guarded [read] obtains, where
    it is stored, and what is recorded. *)
Lemma SourceRandomOctets_posix_run (buffer : list Z) (s : State Engine) :
  let g := self s in
  let n := length buffer in
  let a1 := os_read os (trace s) (random_fd g) n in
  let k1 := if (0 <=? random_fd g) && (0 <? fst a1) then fst a1 else 0 in
  let h1 := if 0 <=? random_fd g
            then trace s ++ [EvRead (random_fd g) 0 n (fst a1)]
            else trace s in
  let second := (k1 <? Z.of_nat n) && (0 <=? pseudo_random_fd g) in
  let a2 := os_read os h1 (pseudo_random_fd g) (n - Z.to_nat k1) in
  let k2 := if second && (0 <? fst a2) then fst a2 else 0 in
  let h2 := if second
            then h1 ++ [EvRead (pseudo_random_fd g) (Z.to_nat k1)
                               (n - Z.to_nat k1) (fst a2)]
            else h1 in
  SourceRandomOctets_posix os buffer s =
  (k1 + k2,
   store (store buffer 0 (deliver (snd a1) (Z.to_nat k1)))
         (Z.to_nat k1) (deliver (snd a2) (Z.to_nat k2)),
   mkState g h2).
Proof.
  destruct s as [g h].
  unfold SourceRandomOctets_posix, bind, this, sys_read, ret. run_step.
  destruct (0 <=? random_fd g); run_step.
  - destruct (os_read os h (random_fd g) (length buffer)) as [r1 b1].
    run_step.
    destruct (0 <? r1); run_step; tidy; second_read os.
  - tidy. second_read os.
Qed.

Variable platform : Platform.

(** The [_WIN32] branch in closed form. *)
Lemma SourceRandomOctets_win32_run (buffer : list Z) (s : State Engine) :
  let cbBuffer := uint32 (Z.of_nat (length buffer)) in
  let a := os_BCryptGenRandom os (trace s) cbBuffer in
  let ok := fst a =? STATUS_SUCCESS in
  SourceRandomOctets_win32 os buffer s =
  (if ok then Z.of_nat (length buffer) else 0,
   if ok then store buffer 0 (deliver (snd a) (Z.to_nat cbBuffer)) else buffer,
   mkState (self s) (trace s ++ [EvBCryptGenRandom cbBuffer (fst a)])).
Proof.
  unfold SourceRandomOctets_win32, bind, BCryptGenRandom, ret. run_step.
  destruct (os_BCryptGenRandom os (trace s) _) as [status bytes]. run_step.
  destruct (status =? STATUS_SUCCESS); reflexivity.
Qed.

(** The early return. *)
Lemma SourceRandomOctets_skip (buffer : list Z) (s : State Engine) :
  Nat.eqb (length buffer) 0 || pseudo_random_only (self s) = true ->
  SourceRandomOctets os platform buffer s = (0, buffer, s).
Proof.
  intros Hskip. unfold SourceRandomOctets, bind, this. run_step.
  now rewrite Hskip.
Qed.

(** Past the early return the platform's branch runs. *)
Lemma SourceRandomOctets_active (buffer : list Z) (s : State Engine) :
  Nat.eqb (length buffer) 0 || pseudo_random_only (self s) = false ->
  SourceRandomOctets os platform buffer s =
  match platform with
  | Posix => SourceRandomOctets_posix os buffer s
  | Win32 => SourceRandomOctets_win32 os buffer s
  | Other => (0, buffer, s)
  end.
Proof.
  intros Hact. unfold SourceRandomOctets, bind, this. run_step.
  rewrite Hact. now destruct platform.
Qed.

(** Whatever the platform and the system do, a call stores two (possibly
    empty) blocks back to back from the start of the buffer, leaves the
    object alone, and adds only device events to the history; the count is
    the length of the blocks, or the length of the buffer. *)
Lemma SourceRandomOctets_shape (buffer : list Z) (s : State Engine) :
  exists d1 d2 evs,
    SourceRandomOctets os platform buffer s =
    (fst (fst (SourceRandomOctets os platform buffer s)),
     store (store buffer 0 d1) (length d1) d2,
     mkState (self s) (trace s ++ evs))
    /\ forallb is_device_event evs = true
    /\ (fst (fst (SourceRandomOctets os platform buffer s))
          = Z.of_nat (length d1 + length d2)
        \/ fst (fst (SourceRandomOctets os platform buffer s))
          = Z.of_nat (length buffer)).
Proof.
  destruct (Nat.eqb (length buffer) 0 || pseudo_random_only (self s)) eqn:E.
  - rewrite (SourceRandomOctets_skip _ _ E).
    exists [], [], []. rewrite !store_nil, app_nil_r.
    destruct s. repeat split; auto.
  - rewrite (SourceRandomOctets_active _ _ E). destruct platform.
    + rewrite SourceRandomOctets_posix_run. cbv zeta. cbn [fst snd].
      set (a1 := os_read os (trace s) (random_fd (self s)) (length buffer)).
      set (k1 := if (0 <=? random_fd (self s)) && (0 <? fst a1)
                 then fst a1 else 0).
      set (h1 := if 0 <=? random_fd (self s) then _ else _).
      set (second := (k1 <? Z.of_nat (length buffer))
                     && (0 <=? pseudo_random_fd (self s))).
      set (a2 := os_read os h1 _ _).
      set (k2 := if second && (0 <? fst a2) then fst a2 else 0).
      assert (Hk1 : 0 <= k1).
      { subst k1. destruct (0 <=? _); cbn [andb]; [|lia].
        destruct (0 <? fst a1) eqn:E1; lia. }
      assert (Hk2 : 0 <= k2).
      { subst k2. destruct second; cbn [andb]; [|lia].
        destruct (0 <? fst a2) eqn:E2; lia. }
      exists (deliver (snd a1) (Z.to_nat k1)),
             (deliver (snd a2) (Z.to_nat k2)).
      rewrite !deliver_length.
      exists ((if 0 <=? random_fd (self s)
               then [EvRead (random_fd (self s)) 0 (length buffer) (fst a1)]
               else [])
              ++ (if second
                  then [EvRead (pseudo_random_fd (self s)) (Z.to_nat k1)
                               (length buffer - Z.to_nat k1) (fst a2)]
                  else [])).
      split; [|split].
      * f_equal. f_equal. subst h1.
        destruct (0 <=? random_fd (self s)), second;
          rewrite ?app_nil_r, <- ?app_assoc; reflexivity.
      * destruct (0 <=? random_fd (self s)), second; reflexivity.
      * left. lia.
    + rewrite SourceRandomOctets_win32_run. cbv zeta. cbn [fst snd].
      set (cb := uint32 (Z.of_nat (length buffer))).
      set (a := os_BCryptGenRandom os (trace s) cb).
      destruct (fst a =? STATUS_SUCCESS).
      * exists (deliver (snd a) (Z.to_nat cb)), [], [EvBCryptGenRandom cb (fst a)].
        rewrite store_nil. repeat split; auto.
      * exists [], [], [EvBCryptGenRandom cb (fst a)].
        rewrite !store_nil. repeat split; auto.
    + exists [], [], []. rewrite !store_nil, app_nil_r.
      destruct s. repeat split; auto.
Qed.

(** Consequences of the shape. *)
Lemma SourceRandomOctets_self (buffer : list Z) (s : State Engine) :
  self (snd (SourceRandomOctets os platform buffer s)) = self s.
Proof.
  destruct (SourceRandomOctets_shape buffer s) as (d1 & d2 & evs & -> & _).
  reflexivity.
Qed.

Lemma SourceRandomOctets_length (buffer : list Z) (s : State Engine) :
  length (snd (fst (SourceRandomOctets os platform buffer s))) = length buffer.
Proof.
  destruct (SourceRandomOctets_shape buffer s) as (d1 & d2 & evs & -> & _).
  cbn [fst snd]. now rewrite !store_length.
Qed.

Lemma SourceRandomOctets_trace (buffer : list Z) (s : State Engine) :
  exists evs,
    trace (snd (SourceRandomOctets os platform buffer s)) = trace s ++ evs
    /\ forallb is_device_event evs = true.
Proof.
  destruct (SourceRandomOctets_shape buffer s) as (d1 & d2 & evs & -> & H & _).
  exists evs. split; [reflexivity | exact H].
Qed.

Lemma SourceRandomOctets_count_nonneg (buffer : list Z) (s : State Engine) :
  0 <= fst (fst (SourceRandomOctets os platform buffer s)).
Proof.
  destruct (SourceRandomOctets_shape buffer s) as (d1 & d2 & evs & _ & _ & H).
  destruct H as [-> | ->]; lia.
Qed.

(** Positions at or past the returned count keep the caller's octets. *)
Lemma SourceRandomOctets_untouched (buffer : list Z) (s : State Engine) i :
  (Z.to_nat (fst (fst (SourceRandomOctets os platform buffer s))) <= i)%nat ->
  nth i (snd (fst (SourceRandomOctets os platform buffer s))) 0 =
  nth i buffer 0.
Proof.
  destruct (SourceRandomOctets_shape buffer s) as (d1 & d2 & evs & E & _ & H).
  intros Hi. rewrite E. cbn [fst snd].
  destruct H as [H | H]; rewrite H, Nat2Z.id in Hi.
  - rewrite !nth_store_outside; [reflexivity | right; simpl; lia | right; lia].
  - rewrite !nth_overflow; rewrite ?store_length; auto.
Qed.

(** A count of zero means the buffer is as the caller left it. *)
Lemma SourceRandomOctets_zero (buffer : list Z) (s : State Engine) :
  fst (fst (SourceRandomOctets os platform buffer s)) = 0 ->
  snd (fst (SourceRandomOctets os platform buffer s)) = buffer.
Proof.
  intros H0. apply nth_ext with (d := 0) (d' := 0).
  - apply SourceRandomOctets_length.
  - intros i _. apply SourceRandomOctets_untouched. rewrite H0. simpl. lia.
Qed.

End Reader.

(** ** Retrieval *)

Section Retrieval.

Context {Engine : Type} `{RandomLib : StdRandom Engine}.
Variable os : OS.
Variable platform : Platform.

(** The allocating overload when the vector's constructor throws: the
    exception, and the state as it was. *)
Lemma GetRandomOctets_throws (count : nat) (s : State Engine) e :
  vector_throws os (trace s) count = Some e ->
  GetRandomOctets os platform count s = (Thrown e, s).
Proof.
  intros Hthrow. unfold GetRandomOctets, bind, new_vector.
  now rewrite Hthrow.
Qed.

(** No octet asked: nothing is done. *)
Lemma GetRandomOctets_0 (s : State Engine) :
  GetRandomOctets os platform 0 s = (Returned [], s).
Proof. reflexivity. Qed.

(** The allocating overload past the vector and the early return: one call
    of the reader on [count] zero octets, then the loop. *)
Lemma GetRandomOctets_run (count : nat) (s : State Engine) :
  count <> 0%nat ->
  vector_throws os (trace s) count = None ->
  let r := SourceRandomOctets os platform (repeat 0 count) s in
  GetRandomOctets os platform count s =
  (Returned (xor_with (snd (fst r)) (pads count s)),
   mkState
     (with_random_engine (self s)
        (engine_after (distribution (self s)) count (random_engine (self s))))
     (trace (snd r))).
Proof.
  intros Hcount Hvector. cbv zeta. unfold GetRandomOctets.
  unfold bind at 1. unfold new_vector. rewrite Hvector.
  destruct (Nat.eqb_spec count 0) as [|_]; [contradiction|].
  unfold bind.
  pose proof (SourceRandomOctets_self os platform (repeat 0 count) s) as Hself.
  pose proof (SourceRandomOctets_length os platform (repeat 0 count) s) as Hlen.
  destruct (SourceRandomOctets os platform (repeat 0 count) s)
    as [[k octets] s1].
  cbn [fst snd] in *. rewrite repeat_length in Hlen.
  rewrite <- Hlen at 1.
  rewrite (xor_indexed_run octets [] s1). cbn [app].
  rewrite xor_each_run. cbn [fst snd]. unfold drawn, pads, ret.
  now rewrite Hself, Hlen.
Qed.

(** The three ways through the allocating overload. *)
Lemma GetRandomOctets_cases (count : nat) (s : State Engine) :
  GetRandomOctets os platform count s = (Returned [], s)
  \/ (exists e, GetRandomOctets os platform count s = (Thrown e, s))
  \/ GetRandomOctets os platform count s =
     (Returned (xor_with
                  (snd (fst (SourceRandomOctets os platform
                               (repeat 0 count) s)))
                  (pads count s)),
      mkState
        (with_random_engine (self s)
           (engine_after (distribution (self s)) count
                         (random_engine (self s))))
        (trace (snd (SourceRandomOctets os platform (repeat 0 count) s)))).
Proof.
  destruct count as [|count]; [left; reflexivity|]. right.
  destruct (vector_throws os (trace s) (S count)) as [e|] eqn:Hvector.
  - left. exists e. now apply GetRandomOctets_throws.
  - right. now apply GetRandomOctets_run.
Qed.

(** The span overload past its early return. *)
Lemma GetRandomOctets_span_run (octets : list Z) (s : State Engine) :
  octets <> [] ->
  let r := SourceRandomOctets os platform octets s in
  GetRandomOctets_span os platform octets s =
  (xor_with (snd (fst r)) (pads (length octets) s),
   mkState
     (with_random_engine (self s)
        (engine_after (distribution (self s)) (length octets)
                      (random_engine (self s))))
     (trace (snd r))).
Proof.
  intros Hne. cbv zeta. unfold GetRandomOctets_span.
  destruct (Nat.eqb_spec (length octets) 0) as [E|_].
  { destruct octets; [contradiction | discriminate]. }
  unfold bind.
  pose proof (SourceRandomOctets_self os platform octets s) as Hself.
  pose proof (SourceRandomOctets_length os platform octets s) as Hlen.
  destruct (SourceRandomOctets os platform octets s) as [[k octets'] s1].
  cbn [fst snd] in *.
  rewrite xor_each_run. unfold drawn, pads.
  now rewrite Hself, Hlen.
Qed.

(** The single-octet primitive. *)
Lemma GetRandomOctet_run (s : State Engine) :
  let r := SourceRandomOctets os platform [0] s in
  GetRandomOctet os platform s =
  (xor8 (nth 0 (snd (fst r)) 0)
        (uint8 (fst (dist_invoke (distribution (self s))
                                 (random_engine (self s))))),
   mkState
     (with_random_engine (self s)
        (snd (dist_invoke (distribution (self s)) (random_engine (self s)))))
     (trace (snd r))).
Proof.
  cbv zeta. unfold GetRandomOctet, bind.
  pose proof (SourceRandomOctets_self os platform [0] s) as Hself.
  destruct (SourceRandomOctets os platform [0] s) as [[k buffer] s1].
  cbn [fst snd] in *.
  rewrite GetPseudoRandomOctet_run. unfold ret.
  now rewrite Hself.
Qed.

(** C1.  For a non-empty request, either bulk overload is one call of the
    operating-system reader on the whole buffer followed by one
    pseudo-random octet XORed into each position, filled by the system or
    not: the history is that of the one reader call, the engine has been
    invoked exactly as many times as there are positions, and position [i]
    holds the reader's octet XOR the [i]-th draw.  For the allocating
    overload this is so when its vector of [count] octets can be
    constructed, and it then returns exactly [count] octets; when the
    constructor throws, the overload leaves with that exception before any
    read or draw. *)
Theorem bulk_is_one_read_then_one_draw_per_position
    (count : nat) (octets : list Z) (s : State Engine) :
  count <> 0%nat -> octets <> [] ->
  let d := distribution (self s) in
  let e := random_engine (self s) in
  let r := SourceRandomOctets os platform (repeat 0 count) s in
  let r' := SourceRandomOctets os platform octets s in
  let out' := GetRandomOctets_span os platform octets s in
  (* the allocating overload, its vector constructed *)
  (vector_throws os (trace s) count = None ->
   exists out,
     GetRandomOctets os platform count s =
       (Returned out,
        mkState (with_random_engine (self s) (engine_after d count e))
                (trace (snd r)))
     /\ length out = count
     /\ Forall is_octet out
     /\ (forall i, (i < count)%nat ->
           nth i out 0 =
           xor8 (nth i (snd (fst r)) 0)
                (uint8 (fst (dist_invoke d (engine_after d i e))))))
  (* the allocating overload, the constructor of its vector throwing *)
  /\ (forall ex, vector_throws os (trace s) count = Some ex ->
        GetRandomOctets os platform count s = (Thrown ex, s))
  (* the span overload *)
  /\ snd out' = mkState (with_random_engine (self s)
                           (engine_after d (length octets) e))
                        (trace (snd r'))
  /\ length (fst out') = length octets
  /\ (forall i, (i < length octets)%nat ->
        nth i (fst out') 0 =
        xor8 (nth i (snd (fst r')) 0)
             (uint8 (fst (dist_invoke d (engine_after d i e))))).
Proof.
  intros Hcount Hne. cbv zeta.
  rewrite (GetRandomOctets_span_run octets s Hne). cbv zeta. cbn [fst snd].
  pose proof (SourceRandomOctets_length os platform (repeat 0 count) s) as Hl.
  pose proof (SourceRandomOctets_length os platform octets s) as Hl'.
  rewrite repeat_length in Hl.
  unfold pads.
  split; [|split; [|repeat split]].
  - intros Hvector. eexists.
    split; [apply (GetRandomOctets_run count s Hcount Hvector)|].
    cbv zeta. unfold pads. repeat split.
    + rewrite xor_with_length; rewrite ?draws_length; congruence.
    + apply xor_with_octets.
    + intros i Hi.
      rewrite nth_xor_with, nth_draws; rewrite ?draws_length; auto; lia.
  - intros ex. apply GetRandomOctets_throws.
  - rewrite xor_with_length; rewrite ?draws_length; congruence.
  - intros i Hi.
    rewrite nth_xor_with, nth_draws; rewrite ?draws_length; auto; lia.
Qed.

(** C2.  [GetRandomOctet] is defined on every state and under every
    behaviour of the system; its value is the octet the reader sourced — 0
    when the reader reports no octet — XOR one draw of the engine, which
    the call advances by exactly that draw. *)
Theorem single_octet_is_os_octet_xor_one_draw (s : State Engine) :
  let d := distribution (self s) in
  let e := random_engine (self s) in
  let r := SourceRandomOctets os platform [0] s in
  let os_octet := if fst (fst r) =? 0 then 0 else nth 0 (snd (fst r)) 0 in
  GetRandomOctet os platform s =
  (xor8 os_octet (uint8 (fst (dist_invoke d e))),
   mkState (with_random_engine (self s) (snd (dist_invoke d e)))
           (trace (snd r))).
Proof.
  cbv zeta. rewrite GetRandomOctet_run. cbv zeta.
  destruct (Z.eqb_spec (fst (fst (SourceRandomOctets os platform [0] s))) 0)
    as [H0|_]; [|reflexivity].
  now rewrite (SourceRandomOctets_zero os platform [0] s H0).
Qed.

(** C6.  A request for no octets returns the empty sequence and the state
    it was given: the object, its engine included, and the history of system
    calls are untouched. *)
Theorem zero_length_request_is_a_no_op (s : State Engine) :
  GetRandomOctets os platform 0 s = (Returned [], s)
  /\ GetRandomOctets_span os platform [] s = ([], s).
Proof. split; reflexivity. Qed.

End Retrieval.

(** ** The reader on each platform *)

Section Platforms.

Context {Engine : Type} `{RandomLib : StdRandom Engine}.
Variable os : OS.

(** C3.  POSIX, mixed mode, non-empty buffer.  The true-random descriptor,
    when held, is read once into the start of the buffer for the whole
    length; [k1] octets are obtained (none when the descriptor is not held or
    the read returns no octet).  Only when [k1] is short of the buffer length
    is the pseudo-random descriptor, when held, read once, into the suffix at
    offset [k1] for the remaining length; [k2] octets are obtained.  The
    count returned is [k1 + k2]; with a [read] that honours its bound it
    lies between 0 and the buffer length, and a shortfall is just a smaller
    count. *)
Theorem posix_reads_primary_then_secondary_for_the_rest
    (buffer : list Z) (s : State Engine) :
  read_bounded os ->
  buffer <> [] ->
  pseudo_random_only (self s) = false ->
  let g := self s in
  let n := length buffer in
  let a1 := os_read os (trace s) (random_fd g) n in
  let k1 := if (0 <=? random_fd g) && (0 <? fst a1) then fst a1 else 0 in
  let h1 := if 0 <=? random_fd g
            then trace s ++ [EvRead (random_fd g) 0 n (fst a1)]
            else trace s in
  let second := (k1 <? Z.of_nat n) && (0 <=? pseudo_random_fd g) in
  let a2 := os_read os h1 (pseudo_random_fd g) (n - Z.to_nat k1) in
  let k2 := if second && (0 <? fst a2) then fst a2 else 0 in
  let h2 := if second
            then h1 ++ [EvRead (pseudo_random_fd g) (Z.to_nat k1)
                               (n - Z.to_nat k1) (fst a2)]
            else h1 in
  SourceRandomOctets os Posix buffer s =
  (k1 + k2,
   store (store buffer 0 (deliver (snd a1) (Z.to_nat k1)))
         (Z.to_nat k1) (deliver (snd a2) (Z.to_nat k2)),
   mkState g h2)
  /\ 0 <= k1 <= Z.of_nat n
  /\ 0 <= k2
  /\ k1 + k2 <= Z.of_nat n.
Proof.
  intros Hread Hne Hmixed. cbv zeta.
  split.
  - rewrite SourceRandomOctets_active.
    + apply SourceRandomOctets_posix_run.
    + rewrite Hmixed. destruct buffer; [contradiction | reflexivity].
  - set (n := length buffer).
    set (a1 := os_read os (trace s) (random_fd (self s)) n).
    set (k1 := if (0 <=? random_fd (self s)) && (0 <? fst a1)
               then fst a1 else 0).
    set (h1 := if 0 <=? random_fd (self s) then _ else _).
    set (second := (k1 <? Z.of_nat n) && (0 <=? pseudo_random_fd (self s))).
    set (a2 := os_read os h1 _ _).
    assert (Hk1 : 0 <= k1 <= Z.of_nat n).
    { subst k1. destruct (0 <=? random_fd (self s)); cbn [andb]; [|lia].
      destruct (Z.ltb_spec 0 (fst a1)); [|lia].
      pose proof (Hread (trace s) (random_fd (self s)) n) as Hb.
      fold a1 in Hb. lia. }
    split; [exact Hk1|].
    destruct second eqn:Esecond; cbn [andb]; [|lia].
    destruct (Z.ltb_spec 0 (fst a2)); [|lia].
    pose proof (Hread h1 (pseudo_random_fd (self s)) (n - Z.to_nat k1)%nat) as Hb.
    fold a2 in Hb. lia.
Qed.

(** Windows, mixed mode, non-empty buffer.  [BCryptGenRandom] is called
    once, for the buffer length converted to [ULONG].  On [STATUS_SUCCESS]
    the count returned is the whole buffer length; on any other status it is
    0 and the buffer is as the caller left it: the count is never in
    between.  When the length fits a [ULONG], success overwrites every
    position. *)
Theorem win32_sourcing_is_all_or_nothing
    (buffer : list Z) (s : State Engine) :
  buffer <> [] ->
  pseudo_random_only (self s) = false ->
  let n := length buffer in
  let cbBuffer := uint32 (Z.of_nat n) in
  let a := os_BCryptGenRandom os (trace s) cbBuffer in
  let r := SourceRandomOctets os Win32 buffer s in
  snd r = mkState (self s) (trace s ++ [EvBCryptGenRandom cbBuffer (fst a)])
  /\ (fst a = STATUS_SUCCESS -> fst (fst r) = Z.of_nat n)
  /\ (fst a <> STATUS_SUCCESS -> fst (fst r) = 0 /\ snd (fst r) = buffer)
  /\ (fst (fst r) = Z.of_nat n \/ fst (fst r) = 0)
  /\ (fst a = STATUS_SUCCESS -> Z.of_nat n < 2 ^ 32 ->
      snd (fst r) = deliver (snd a) n).
Proof.
  intros Hne Hmixed. cbv zeta.
  rewrite SourceRandomOctets_active
    by (rewrite Hmixed; destruct buffer; [contradiction | reflexivity]).
  rewrite SourceRandomOctets_win32_run. cbv zeta. cbn [fst snd].
  set (cb := uint32 (Z.of_nat (length buffer))).
  set (a := os_BCryptGenRandom os (trace s) cb).
  destruct (Z.eqb_spec (fst a) STATUS_SUCCESS) as [Hok|Hfail].
  - repeat split; auto; try contradiction.
    intros _ Hfit.
    assert (Hcb : Z.to_nat cb = length buffer).
    { subst cb. unfold uint32. rewrite Z.mod_small by lia. apply Nat2Z.id. }
    rewrite Hcb. apply store_whole. apply deliver_length.
  - repeat split; auto; try contradiction.
Qed.

(** The length handed to [BCryptGenRandom] is the buffer length modulo
    [2^32]: for a buffer of [2^32] octets the call is for no octet at all,
    and on success the whole length is reported with nothing written. *)
Remark win32_length_wraps_at_ULONG (buffer : list Z) (s : State Engine) :
  Z.of_nat (length buffer) = 2 ^ 32 ->
  pseudo_random_only (self s) = false ->
  fst (os_BCryptGenRandom os (trace s) 0) = STATUS_SUCCESS ->
  fst (SourceRandomOctets os Win32 buffer s) = (2 ^ 32, buffer).
Proof.
  intros Hlen Hmixed Hok.
  rewrite SourceRandomOctets_active
    by (rewrite Hmixed; destruct buffer; [discriminate | reflexivity]).
  rewrite SourceRandomOctets_win32_run. cbv zeta. cbn [fst].
  rewrite Hlen. change (uint32 (2 ^ 32)) with 0. rewrite Hok.
  change (0 =? STATUS_SUCCESS) with true. cbv iota.
  now rewrite deliver_0, store_nil.
Qed.

End Platforms.

(** ** The object over its lifetime *)

Section Lifetime.

Context {Engine : Type} `{RandomLib : StdRandom Engine}.
Variable os : OS.
Variable platform : Platform.

Lemma same_configuration_refl (g : RandomGenerator Engine) :
  same_configuration g g.
Proof. repeat split. Qed.

Lemma same_configuration_trans (g1 g2 g3 : RandomGenerator Engine) :
  same_configuration g1 g2 -> same_configuration g2 g3 ->
  same_configuration g1 g3.
Proof.
  intros (A1 & A2 & A3 & A4) (B1 & B2 & B3 & B4).
  repeat split; congruence.
Qed.

Lemma same_configuration_engine (g : RandomGenerator Engine) (e : Engine) :
  same_configuration g (with_random_engine g e).
Proof. repeat split. Qed.

(** No member function changes anything of the object but its engine. *)
Lemma run_call_configuration (c : Call) (s : State Engine) :
  same_configuration (self s) (self (snd (run_call os platform c s))).
Proof.
  destruct c as [|count|octets| |buffer]; cbn [run_call]; unfold bind.
  - rewrite GetRandomOctet_run. cbv zeta. cbn [snd self].
    apply same_configuration_engine.
  - destruct (GetRandomOctets_cases os platform count s)
      as [-> | [(e & ->) | ->]]; cbn [snd self];
      auto using same_configuration_refl, same_configuration_engine.
  - destruct octets as [|o octets]; [apply same_configuration_refl|].
    rewrite GetRandomOctets_span_run by discriminate. cbv zeta. cbn [snd self].
    apply same_configuration_engine.
  - rewrite GetPseudoRandomOctet_run. cbn [snd self].
    apply same_configuration_engine.
  - pose proof (SourceRandomOctets_self os platform buffer s) as Hself.
    destruct (SourceRandomOctets os platform buffer s) as [[k b] s1].
    cbn [snd] in *. unfold ret. cbn [snd]. rewrite Hself.
    apply same_configuration_refl.
Qed.

Lemma run_calls_configuration (cs : list Call) :
  forall s : State Engine,
    same_configuration (self s) (self (snd (run_calls os platform cs s))).
Proof.
  induction cs as [|c cs IH]; intros s; [apply same_configuration_refl|].
  cbn [run_calls]. unfold bind.
  pose proof (run_call_configuration c s) as Hc.
  destruct (run_call os platform c s) as [r s1]. cbn [snd] in Hc.
  specialize (IH s1).
  destruct (run_calls os platform cs s1) as [rs s2]. unfold ret.
  cbn [snd] in *.
  eapply same_configuration_trans; eassumption.
Qed.

(** In pseudo-random-only mode no member function adds to the history. *)
Lemma run_call_quiet (c : Call) (s : State Engine) :
  pseudo_random_only (self s) = true ->
  trace (snd (run_call os platform c s)) = trace s.
Proof.
  intros Honly.
  assert (Hskip : forall buffer,
             SourceRandomOctets os platform buffer s = (0, buffer, s)).
  { intros buffer. apply SourceRandomOctets_skip. rewrite Honly.
    apply orb_true_r. }
  destruct c as [|count|octets| |buffer]; cbn [run_call]; unfold bind.
  - rewrite GetRandomOctet_run. cbv zeta. now rewrite Hskip.
  - destruct (GetRandomOctets_cases os platform count s)
      as [-> | [(e & ->) | ->]]; cbn [snd trace]; auto.
    now rewrite Hskip.
  - destruct octets as [|o octets]; [reflexivity|].
    rewrite GetRandomOctets_span_run by discriminate. cbv zeta.
    now rewrite Hskip.
  - now rewrite GetPseudoRandomOctet_run.
  - now rewrite Hskip.
Qed.

Lemma run_calls_quiet (cs : list Call) :
  forall s : State Engine,
    pseudo_random_only (self s) = true ->
    trace (snd (run_calls os platform cs s)) = trace s.
Proof.
  induction cs as [|c cs IH]; intros s Honly; [reflexivity|].
  cbn [run_calls]. unfold bind.
  pose proof (run_call_quiet c s Honly) as Hq.
  pose proof (run_call_configuration c s) as (Hc & _).
  destruct (run_call os platform c s) as [r s1]. cbn [snd] in *.
  specialize (IH s1 ltac:(congruence)).
  destruct (run_calls os platform cs s1) as [rs s2]. unfold ret.
  cbn [snd] in *. congruence.
Qed.

(** The destructor closes exactly the descriptors that are held. *)
Lemma RandomGenerator_dtor_run (s : State Engine) :
  RandomGenerator_dtor platform s =
  (tt,
   mkState (self s)
     (trace s ++
      match platform with
      | Posix =>
          (if 0 <=? random_fd (self s)
           then [EvClose (random_fd (self s))] else [])
          ++ (if 0 <=? pseudo_random_fd (self s)
              then [EvClose (pseudo_random_fd (self s))] else [])
      | _ => []
      end)).
Proof.
  destruct s as [g h]. unfold RandomGenerator_dtor.
  destruct platform; unfold ret; cbn [self trace];
    try (now rewrite app_nil_r).
  unfold bind, this, sys_close, emit, ret. cbn [self trace].
  destruct (0 <=? random_fd g), (0 <=? pseudo_random_fd g); cbn [self trace];
    rewrite <- ?app_assoc, ?app_nil_r; reflexivity.
Qed.

(** The constructor in closed form. *)
Lemma RandomGenerator_ctor_run (flag : bool) (h : Trace) :
  let t0 := os_clock_now os h in
  let h0 := h ++ [EvClockNow t0] in
  let opens := match platform, flag with Posix, false => true | _, _ => false end in
  let fd1 := os_open os h0 "/dev/random" [O_NONBLOCK; O_RDONLY; O_CLOEXEC] in
  let h1 := h0 ++ [EvOpen "/dev/random" [O_NONBLOCK; O_RDONLY; O_CLOEXEC] fd1] in
  let fd2 := os_open os h1 "/dev/urandom" [O_NONBLOCK; O_RDONLY; O_CLOEXEC] in
  let h2 := h1 ++ [EvOpen "/dev/urandom" [O_NONBLOCK; O_RDONLY; O_CLOEXEC] fd2] in
  let h3 := if opens then h2 else h0 in
  let seed := os_random_device os h3 in
  let h4 := h3 ++ [EvRandomDevice seed] in
  let t1 := os_clock_now os h4 in
  RandomGenerator_ctor os platform flag h =
  mkState
    (mkGenerator flag (0, 255)
       (match seed with
        | Some value => engine_seed value
        | None => engine_seed (uint32 t1)
        end)
       (if opens then fd1 else -1)
       (if opens then fd2 else -1))
    (match seed with
     | Some _ => h4
     | None => h4 ++ [EvClockNow t1]
     end).
Proof.
  cbv zeta.
  unfold RandomGenerator_ctor, clock_now, sys_open, random_device.
  destruct platform, flag; cbv beta zeta iota;
    match goal with
    | |- context [os_random_device os ?h] =>
        destruct (os_random_device os h); reflexivity
    end.
Qed.

(** Constructed with [true]: the mode is set, nothing is opened. *)
Lemma RandomGenerator_ctor_pseudo_random_only (h : Trace) :
  let born := RandomGenerator_ctor os platform true h in
  pseudo_random_only (self born) = true
  /\ device_events (trace born) = device_events h
  /\ random_fd (self born) = -1
  /\ pseudo_random_fd (self born) = -1.
Proof.
  cbv zeta. rewrite RandomGenerator_ctor_run. cbv zeta.
  unfold device_events.
  destruct platform; cbv beta iota;
    cbn [self trace pseudo_random_only random_fd pseudo_random_fd];
    destruct (os_random_device os _);
    rewrite !filter_app; cbn [filter is_device_event];
    rewrite ?app_nil_r; auto.
Qed.

End Lifetime.

(** ** Modes, seeding, and the loops against the primitive *)

Section Modes.

Context {Engine : Type} `{RandomLib : StdRandom Engine}.
Variable os : OS.
Variable platform : Platform.

(** C4.  An object constructed with [pseudo_random_only = true] never
    touches an entropy device.  Construction opens nothing (on POSIX both
    descriptors are [-1]); the reader returns 0 with buffer, object and
    history as they were whenever the object is in pseudo-random-only mode or
    the buffer is empty; and after any sequence of member-function calls the
    mode and the descriptors are as constructed and the history has not
    grown, nor does destruction add to it. *)
Theorem pseudo_random_only_never_touches_a_device
    (cs : list Call) (h : Trace) (buffer : list Z) (s : State Engine) :
  let born := RandomGenerator_ctor os platform true h in
  let used := snd (run_calls os platform cs born) in
  let gone := snd (lifetime os platform true cs h) in
  (* at construction *)
  pseudo_random_only (self born) = true
  /\ device_events (trace born) = device_events h
  /\ (platform = Posix ->
      random_fd (self born) = -1 /\ pseudo_random_fd (self born) = -1)
  (* the reader's early return *)
  /\ (pseudo_random_only (self s) = true \/ buffer = [] ->
      SourceRandomOctets os platform buffer s = (0, buffer, s))
  (* across every operation *)
  /\ pseudo_random_only (self used) = true
  /\ (platform = Posix ->
      random_fd (self used) = -1 /\ pseudo_random_fd (self used) = -1)
  /\ trace used = trace born
  /\ trace gone = trace born.
Proof.
  cbv zeta.
  destruct (RandomGenerator_ctor_pseudo_random_only os platform h)
    as (Honly & Hdev & Hfd1 & Hfd2).
  set (born := RandomGenerator_ctor os platform true h) in *.
  pose proof (run_calls_configuration os platform cs born) as (C1 & _ & C3 & C4).
  pose proof (run_calls_quiet os platform cs born Honly) as Hquiet.
  split; [exact Honly|]. split; [exact Hdev|]. split; [auto|].
  split.
  { intros [Hmode | ->]; apply SourceRandomOctets_skip.
    - rewrite Hmode. apply orb_true_r.
    - reflexivity. }
  split; [congruence|]. split; [intros _; split; congruence|].
  split; [exact Hquiet|].
  unfold lifetime, bind. fold born.
  destruct (run_calls os platform cs born) as [rs used] eqn:Eused.
  cbn [snd] in *.
  rewrite RandomGenerator_dtor_run. unfold ret. cbn [snd trace].
  rewrite Hquiet, C3, C4, Hfd1, Hfd2.
  destruct platform; cbn; now rewrite app_nil_r.
Qed.

(** C5.  Construction yields an object under every behaviour of the system.
    The engine is seeded from [std::random_device]; when that throws, the
    handler seeds it from the clock, read at that moment, and nothing of the
    failure is left but its entry in the history. *)
Theorem construction_always_yields_a_seeded_object
    (pseudo_random_only_arg : bool) (h : Trace) :
  let s := RandomGenerator_ctor os platform pseudo_random_only_arg h in
  exists before : Trace,
    (exists opened, before = h ++ EvClockNow (os_clock_now os h) :: opened)
    /\ pseudo_random_only (self s) = pseudo_random_only_arg
    /\ distribution (self s) = (0, 255)
    /\ match os_random_device os before with
       | Some value =>
           random_engine (self s) = engine_seed value
           /\ trace s = before ++ [EvRandomDevice (Some value)]
       | None =>
           let ticks := os_clock_now os (before ++ [EvRandomDevice None]) in
           random_engine (self s) = engine_seed (uint32 ticks)
           /\ trace s = before ++ [EvRandomDevice None; EvClockNow ticks]
       end.
Proof.
  cbv zeta. rewrite RandomGenerator_ctor_run. cbv zeta.
  set (t0 := os_clock_now os h).
  set (opens := match platform with Posix => _ | _ => _ end).
  set (h3 := if opens then _ else _).
  exists h3. split; [|split; [reflexivity | split; [reflexivity|]]].
  - subst h3. destruct opens.
    + eexists. rewrite <- !app_assoc. cbn [app]. reflexivity.
    + exists []. reflexivity.
  - destruct (os_random_device os h3); split; try reflexivity.
    cbn [trace]. now rewrite <- app_assoc.
Qed.

(** C8.  A pseudo-random draw is defined on every state; its value and the
    engine it leaves are those of one invocation of the distribution on the
    engine, so they depend on nothing but the engine and the bounds; nothing
    else of the state moves.  The value returned is an octet.  The bounds
    are those the constructor set, [(0, 255)], at every point of an object's
    life; a distribution that honours its bounds then yields the returned
    octet itself, and an engine that every invocation moves is moved by every
    draw. *)
Theorem pseudo_random_octet_is_one_bounded_draw
    (s s' : State Engine) (flag : bool) (h : Trace) (cs : list Call) :
  let d := distribution (self s) in
  let e := random_engine (self s) in
  let live := snd (run_calls os platform cs
                     (RandomGenerator_ctor os platform flag h)) in
  GetPseudoRandomOctet s =
    (uint8 (fst (dist_invoke d e)),
     mkState (with_random_engine (self s) (engine_after d 1 e)) (trace s))
  /\ is_octet (fst (GetPseudoRandomOctet s))
  /\ (random_engine (self s') = e -> distribution (self s') = d ->
      fst (GetPseudoRandomOctet s') = fst (GetPseudoRandomOctet s)
      /\ random_engine (self (snd (GetPseudoRandomOctet s')))
         = random_engine (self (snd (GetPseudoRandomOctet s))))
  /\ distribution (self live) = (0, 255)
  /\ (dist_in_bounds -> d = (0, 255) ->
      fst (GetPseudoRandomOctet s) = fst (dist_invoke (0, 255) e))
  /\ (engine_advances ->
      random_engine (self (snd (GetPseudoRandomOctet s))) <> e).
Proof.
  cbv zeta. rewrite !GetPseudoRandomOctet_run. cbn [fst snd engine_after].
  split; [reflexivity|]. split; [apply uint8_is_octet|].
  split; [intros -> ->; split; reflexivity|].
  split.
  { pose proof (run_calls_configuration os platform cs
                  (RandomGenerator_ctor os platform flag h)) as (_ & -> & _).
    now rewrite RandomGenerator_ctor_run. }
  split.
  - intros Hb ->. apply uint8_of_octet. apply Hb. lia.
  - intros Hadv. apply Hadv.
Qed.

End Modes.

(** ** Bulk retrieval against the single-octet primitive *)

Section Bulk.

Context {Engine : Type} `{RandomLib : StdRandom Engine}.
Variable os : OS.
Variable platform : Platform.

(** In pseudo-random-only mode the reader is out of the picture. *)
Lemma SourceRandomOctets_pseudo_random_only (buffer : list Z) (s : State Engine) :
  pseudo_random_only (self s) = true ->
  SourceRandomOctets os platform buffer s = (0, buffer, s).
Proof.
  intros Honly. apply SourceRandomOctets_skip. rewrite Honly.
  apply orb_true_r.
Qed.

(** [n] calls of the primitive are then the range-[for] loop over [n] zero
    octets. *)
Lemma GetRandomOctet_times_pseudo_random_only (n : nat) :
  forall s : State Engine,
    pseudo_random_only (self s) = true ->
    GetRandomOctet_times os platform n s = xor_each (repeat 0 n) s.
Proof.
  induction n as [|n IH]; intros s Honly; [reflexivity|].
  cbn [GetRandomOctet_times repeat xor_each]. unfold bind.
  rewrite GetRandomOctet_run, GetPseudoRandomOctet_run. cbv zeta.
  rewrite (SourceRandomOctets_pseudo_random_only [0] s Honly).
  cbn [fst snd nth].
  rewrite IH by exact Honly. reflexivity.
Qed.

(** C9.  In pseudo-random-only mode, when the vector of [n] octets can be
    constructed, [GetRandomOctets(n)] returns the octets that [n] successive
    calls of [GetRandomOctet()] return from the same state, and leaves the
    state they leave; when the constructor throws, it leaves with the
    exception and the state untouched, which the [n] calls do not. *)
Theorem bulk_equals_repeated_single_in_pseudo_random_only
    (n : nat) (s : State Engine) :
  pseudo_random_only (self s) = true ->
  (vector_throws os (trace s) n = None ->
   GetRandomOctets os platform n s =
   (Returned (fst (GetRandomOctet_times os platform n s)),
    snd (GetRandomOctet_times os platform n s)))
  /\ (forall e, vector_throws os (trace s) n = Some e ->
        GetRandomOctets os platform n s = (Thrown e, s)).
Proof.
  intros Honly. split; [|intros e; apply GetRandomOctets_throws].
  intros Hvector.
  rewrite GetRandomOctet_times_pseudo_random_only by exact Honly.
  destruct n as [|n]; [reflexivity|].
  rewrite GetRandomOctets_run by (discriminate || exact Hvector). cbv zeta.
  rewrite (SourceRandomOctets_pseudo_random_only _ s Honly).
  rewrite xor_each_run, repeat_length. reflexivity.
Qed.


End Bulk.

(** ** The [std::mt19937] instance honours the library's contract *)

Lemma below_2_32_log2 (x : Z) : 0 <= x -> (x < 2 ^ 32 <-> Z.log2 x < 32).
Proof.
  intros Hx. destruct (Z.eq_dec x 0) as [->|Hnz].
  - simpl. lia.
  - apply Z.log2_lt_pow2. lia.
Qed.

Lemma lxor_below_2_32 (a b : Z) :
  0 <= a < 2 ^ 32 -> 0 <= b < 2 ^ 32 -> 0 <= Z.lxor a b < 2 ^ 32.
Proof.
  intros [Ha Ha'] [Hb Hb'].
  assert (Hnn : 0 <= Z.lxor a b) by (apply Z.lxor_nonneg; lia).
  split; [exact Hnn|]. apply below_2_32_log2; [exact Hnn|].
  pose proof (Z.log2_lxor a b Ha Hb).
  apply below_2_32_log2 in Ha', Hb'; lia.
Qed.

Lemma land_below_2_32 (x m : Z) :
  0 <= x -> 0 <= m < 2 ^ 32 -> 0 <= Z.land x m < 2 ^ 32.
Proof.
  intros Hx [Hm Hm'].
  assert (Hnn : 0 <= Z.land x m) by (apply Z.land_nonneg; lia).
  split; [exact Hnn|]. apply below_2_32_log2; [exact Hnn|].
  pose proof (Z.log2_land x m Hx Hm).
  apply below_2_32_log2 in Hm'; lia.
Qed.

Lemma MT19937_next_below_2_32 (e : MT19937.engine) :
  0 <= fst (MT19937.next e) < 2 ^ 32.
Proof.
  unfold MT19937.next. cbv zeta. cbn [fst].
  set (e' := if (624 <=? MT19937.M_p e)%nat then _ else e).
  set (z0 := uint32 (nth (MT19937.M_p e') (MT19937.M_x e') 0)).
  assert (H0 : 0 <= z0 < 2 ^ 32)
    by (subst z0; unfold uint32; apply Z.mod_pos_bound; lia).
  set (z1 := Z.lxor z0 _).
  assert (H1 : 0 <= z1 < 2 ^ 32).
  { subst z1. apply lxor_below_2_32; [exact H0|].
    apply land_below_2_32; [apply Z.shiftr_nonneg|]; lia. }
  set (z2 := Z.lxor z1 _).
  assert (H2 : 0 <= z2 < 2 ^ 32).
  { subst z2. apply lxor_below_2_32; [exact H1|].
    apply land_below_2_32; [apply Z.shiftl_nonneg|]; lia. }
  set (z3 := Z.lxor z2 _).
  assert (H3 : 0 <= z3 < 2 ^ 32).
  { subst z3. apply lxor_below_2_32; [exact H2|].
    apply land_below_2_32; [apply Z.shiftl_nonneg|]; lia. }
  apply lxor_below_2_32; [exact H3|].
  rewrite Z.shiftr_div_pow2 by lia.
  split; [apply Z.div_pos; lia|].
  apply Z.div_lt_upper_bound; lia.
Qed.

(** [rand.dist.uni.int] for the instance. *)
Lemma MT19937_dist_in_bounds : @dist_in_bounds MT19937.engine _.
Proof.
  intros a b e Hab. cbn [dist_invoke MT19937_StdRandom].
  unfold MT19937.uniform_int.
  pose proof (MT19937_next_below_2_32 e) as Hz.
  destruct (MT19937.next e) as [z e']. cbn [fst] in *.
  rewrite Z.shiftr_div_pow2 by lia.
  assert (0 <= z * (b - a + 1) / 2 ^ 32 < b - a + 1); [|lia].
  split; [apply Z.div_pos; nia|].
  apply Z.div_lt_upper_bound; nia.
Qed.

(** Every invocation moves the position in the state words. *)
Lemma MT19937_engine_advances : @engine_advances MT19937.engine _.
Proof.
  intros [a b] e Heq. cbn [dist_invoke MT19937_StdRandom] in Heq.
  unfold MT19937.uniform_int, MT19937.next in Heq. cbv zeta in Heq.
  cbn [snd] in Heq.
  apply (f_equal MT19937.M_p) in Heq. cbn [MT19937.M_p] in Heq.
  destruct (Nat.leb_spec 624 (MT19937.M_p e)); cbn [MT19937.M_p] in Heq; lia.
Qed.

(** The first output after [seed(5489)], the default seed of the engine. *)
Example MT19937_first_output :
  fst (MT19937.next (MT19937.seed 5489)) = 3499211612.
Proof. vm_compute. reflexivity. Qed.

(** The 10000th output after [seed(5489)], the value [rand.predef] requires
    of [mt19937]; bounds that span all 32 bits hand the engine's output
    through. *)
Example MT19937_10000th_output :
  fst (dist_invoke (0, 4294967295)
         (engine_after (0, 4294967295) (Z.to_nat 9999) (engine_seed 5489)))
  = 4123659995.
Proof. vm_compute. reflexivity. Qed.

(** The same object, the same request length, different prior contents:
    different results. *)
Example span_result_depends_on_prior_contents :
  fst (GetRandomOctets_span os_absent Posix [0; 0] prng_only)
  <> fst (GetRandomOctets_span os_absent Posix [255; 255] prng_only).
Proof. vm_compute. discriminate. Qed.

(** ** The theorems at concrete inputs *)

Lemma os_short_read_bounded : read_bounded os_short.
Proof.
  intros h fd count. cbn [os_short os_read].
  destruct (fd =? 3); [|destruct (fd =? 4)]; cbn [fst]; lia.
Qed.

(** C1 on a POSIX system with both devices, for three octets. *)
Lemma bulk_is_one_read_then_one_draw_per_position_witness :
  (3 <> 0)%nat /\ [7; 8; 9] <> []
  /\ vector_throws os_short (trace mixed_posix) 3 = None
  /\ (exists out,
        fst (GetRandomOctets os_short Posix 3 mixed_posix) = Returned out
        /\ length out = 3%nat)
  /\ length (fst (GetRandomOctets_span os_short Posix [7; 8; 9] mixed_posix))
     = 3%nat.
Proof.
  split; [discriminate|]. split; [discriminate|]. split; [reflexivity|].
  pose proof (bulk_is_one_read_then_one_draw_per_position
                os_short Posix 3 [7; 8; 9] mixed_posix
                ltac:(discriminate) ltac:(discriminate))
    as (Halloc & _ & _ & Hlen' & _).
  split; [|exact Hlen'].
  destruct (Halloc eq_refl) as (out & E & Hlen & _).
  exists out. rewrite E. split; [reflexivity | exact Hlen].
Defined.

(** C3 on a POSIX system whose true-random device is two octets short of
    five: two octets come from the first read, three from the second. *)
Lemma posix_reads_primary_then_secondary_for_the_rest_witness :
  read_bounded os_short
  /\ [0; 0; 0; 0; 0] <> []
  /\ pseudo_random_only (self mixed_posix) = false
  /\ fst (SourceRandomOctets os_short Posix [0; 0; 0; 0; 0] mixed_posix)
     = (2 + 3, [0xA0; 0xA1; 0x50; 0x51; 0x52]).
Proof.
  split; [exact os_short_read_bounded|]. split; [discriminate|].
  split; [reflexivity|].
  destruct (posix_reads_primary_then_secondary_for_the_rest
              os_short [0; 0; 0; 0; 0] mixed_posix os_short_read_bounded
              ltac:(discriminate) eq_refl) as (E & _).
  rewrite E. vm_compute. reflexivity.
Defined.

(** C4 on a POSIX system whose devices could be opened, over a sequence of
    calls that goes through every member function. *)
Lemma pseudo_random_only_never_touches_a_device_witness :
  Posix = Posix
  /\ (pseudo_random_only (self prng_only) = true \/ [9; 9] = [])
  /\ SourceRandomOctets os_short Posix [9; 9] prng_only = (0, [9; 9], prng_only)
  /\ random_fd (self (RandomGenerator_ctor os_short Posix true [])) = -1
  /\ trace (snd (lifetime os_short Posix true every_call []))
     = trace (RandomGenerator_ctor os_short Posix true []).
Proof.
  destruct (pseudo_random_only_never_touches_a_device
              os_short Posix every_call [] [9; 9] prng_only)
    as (_ & _ & Hfd & Hskip & _ & _ & _ & Hgone).
  split; [reflexivity|]. split; [left; reflexivity|].
  split; [exact (Hskip (or_introl eq_refl))|].
  split; [exact (proj1 (Hfd eq_refl)) | exact Hgone].
Defined.

(** The Windows branch on a system whose generator succeeds, for three
    octets. *)
Lemma win32_sourcing_is_all_or_nothing_witness :
  [0; 0; 0] <> []
  /\ pseudo_random_only (self mixed_win32) = false
  /\ fst (os_BCryptGenRandom os_short (trace mixed_win32) 3) = STATUS_SUCCESS
  /\ fst (SourceRandomOctets os_short Win32 [0; 0; 0] mixed_win32)
     = (3, [0x70; 0x71; 0x72]).
Proof.
  split; [discriminate|]. split; [reflexivity|]. split; [reflexivity|].
  destruct (win32_sourcing_is_all_or_nothing
              os_short [0; 0; 0] mixed_win32 ltac:(discriminate) eq_refl)
    as (_ & Hcount & _ & _ & Hfill).
  specialize (Hcount eq_refl). specialize (Hfill eq_refl ltac:(simpl; lia)).
  rewrite (surjective_pairing (fst (SourceRandomOctets _ _ _ _))).
  rewrite Hcount, Hfill. reflexivity.
Defined.

(** C8 on the [std::mt19937] instance: the draw depends on the engine, not
    on the history, and moves the engine. *)
Lemma pseudo_random_octet_is_one_bounded_draw_witness :
  random_engine (self (mkState (self prng_only) [EvClose 7]))
    = random_engine (self prng_only)
  /\ distribution (self prng_only) = (0, 255)
  /\ @dist_in_bounds MT19937.engine _
  /\ @engine_advances MT19937.engine _
  /\ fst (GetPseudoRandomOctet (mkState (self prng_only) [EvClose 7]))
     = fst (GetPseudoRandomOctet prng_only)
  /\ fst (GetPseudoRandomOctet prng_only)
     = fst (dist_invoke (0, 255) (random_engine (self prng_only)))
  /\ random_engine (self (snd (GetPseudoRandomOctet prng_only)))
     <> random_engine (self prng_only).
Proof.
  destruct (pseudo_random_octet_is_one_bounded_draw
              os_absent Posix prng_only (mkState (self prng_only) [EvClose 7])
              true [] [])
    as (_ & _ & Hdet & _ & Hval & Hadv).
  split; [reflexivity|]. split; [reflexivity|].
  split; [exact MT19937_dist_in_bounds|].
  split; [exact MT19937_engine_advances|].
  split; [exact (proj1 (Hdet eq_refl eq_refl))|].
  split; [exact (Hval MT19937_dist_in_bounds eq_refl)|].
  exact (Hadv MT19937_engine_advances).
Defined.

(** C9 for five octets. *)
Lemma bulk_equals_repeated_single_in_pseudo_random_only_witness :
  pseudo_random_only (self prng_only) = true
  /\ vector_throws os_absent (trace prng_only) 5 = None
  /\ GetRandomOctets os_absent Posix 5 prng_only
     = (Returned (fst (GetRandomOctet_times os_absent Posix 5 prng_only)),
        snd (GetRandomOctet_times os_absent Posix 5 prng_only)).
Proof.
  split; [reflexivity|]. split; [reflexivity|].
  exact (proj1 (bulk_equals_repeated_single_in_pseudo_random_only
                  os_absent Posix 5 prng_only eq_refl) eq_refl).
Defined.


(** * Further properties of the member functions *)

(** ** Streams of draws *)

Lemma lxor_octets (a b : Z) : is_octet a -> is_octet b -> is_octet (Z.lxor a b).
Proof.
  unfold is_octet. intros [Ha Ha'] [Hb Hb'].
  assert (Hnn : 0 <= Z.lxor a b) by (apply Z.lxor_nonneg; lia).
  split; [exact Hnn|].
  destruct (Z.eq_dec (Z.lxor a b) 0) as [->|Hnz]; [lia|].
  assert (Z.log2 (Z.lxor a b) < 8); [|apply Z.log2_lt_pow2 in H; lia].
  pose proof (Z.log2_lxor a b Ha Hb) as Hl.
  assert (Z.log2 a < 8).
  { destruct (Z.eq_dec a 0) as [->|]; [simpl; lia|].
    apply Z.log2_lt_pow2; lia. }
  assert (Z.log2 b < 8).
  { destruct (Z.eq_dec b 0) as [->|]; [simpl; lia|].
    apply Z.log2_lt_pow2; lia. }
  lia.
Qed.

(** XOR with the same octet twice gives the octet back. *)
Lemma xor8_involutive (a p : Z) :
  is_octet a -> is_octet p -> xor8 (xor8 a p) p = a.
Proof.
  intros Ha Hp. unfold xor8.
  rewrite (uint8_of_octet (Z.lxor a p)) by now apply lxor_octets.
  rewrite Z.lxor_assoc, Z.lxor_nilpotent, Z.lxor_0_r.
  now apply uint8_of_octet.
Qed.

Lemma xor_with_involutive (octets : list Z) :
  forall keys,
    length keys = length octets ->
    Forall is_octet octets -> Forall is_octet keys ->
    xor_with (xor_with octets keys) keys = octets.
Proof.
  induction octets as [|o octets IH]; intros [|k keys] Hlen Ho Hk;
    simpl in Hlen; try discriminate; [reflexivity|].
  inversion Ho; inversion Hk; subst.
  unfold xor_with in *. cbn [combine map fst snd].
  rewrite xor8_involutive by assumption.
  f_equal. apply IH; auto.
Qed.

Lemma xor_with_zeros (keys : list Z) :
  Forall is_octet keys -> xor_with (repeat 0 (length keys)) keys = keys.
Proof.
  induction 1 as [|k keys Hk _ IH]; [reflexivity|].
  unfold xor_with in *. cbn [length repeat combine map fst snd].
  now rewrite IH, xor8_0_l.
Qed.

Section Streams.

Context {Engine : Type} `{RandomLib : StdRandom Engine}.

Lemma draws_octets (d : Z * Z) (n : nat) :
  forall e : Engine, Forall is_octet (draws d n e).
Proof.
  induction n as [|n IH]; intros e; simpl; constructor;
    [apply uint8_is_octet | apply IH].
Qed.

Lemma engine_after_add (d : Z * Z) (m n : nat) :
  forall e : Engine,
    engine_after d (m + n) e = engine_after d n (engine_after d m e).
Proof. induction m as [|m IH]; intros e; simpl; [|rewrite IH]; reflexivity. Qed.

Lemma draws_app (d : Z * Z) (m n : nat) :
  forall e : Engine,
    draws d (m + n) e = draws d m e ++ draws d n (engine_after d m e).
Proof.
  induction m as [|m IH]; intros e; simpl; [|rewrite IH]; reflexivity.
Qed.

Lemma drawn_add (m n : nat) (s : State Engine) :
  drawn (m + n) s = drawn n (drawn m s).
Proof. unfold drawn. simpl. now rewrite engine_after_add. Qed.

Lemma pads_add (m n : nat) (s : State Engine) :
  pads (m + n) s = pads m s ++ pads n (drawn m s).
Proof. unfold pads, drawn. simpl. apply draws_app. Qed.

Lemma pads_length (n : nat) (s : State Engine) : length (pads n s) = n.
Proof. apply draws_length. Qed.

Lemma pads_octets (n : nat) (s : State Engine) : Forall is_octet (pads n s).
Proof. apply draws_octets. Qed.

End Streams.

(** ** Objects with nothing to read from *)

Section Unsourced.

Context {Engine : Type} `{RandomLib : StdRandom Engine}.
Variable os : OS.
Variable platform : Platform.

Lemma SourceRandomOctets_no_source (buffer : list Z) (s : State Engine) :
  no_source platform (self s) = true ->
  SourceRandomOctets os platform buffer s = (0, buffer, s).
Proof.
  intros Hno.
  destruct (Nat.eqb (length buffer) 0 || pseudo_random_only (self s)) eqn:E.
  { now apply SourceRandomOctets_skip. }
  rewrite SourceRandomOctets_active by exact E.
  apply orb_false_iff in E. destruct E as [_ Hmixed].
  unfold no_source in Hno. rewrite Hmixed in Hno. cbn [orb] in Hno.
  destruct platform; [|discriminate|reflexivity].
  apply andb_true_iff in Hno. destruct Hno as [H1 H2].
  apply Z.ltb_lt in H1, H2.
  rewrite SourceRandomOctets_posix_run. cbv zeta.
  destruct (Z.leb_spec 0 (random_fd (self s))); [lia|].
  destruct (Z.leb_spec 0 (pseudo_random_fd (self s))); [lia|].
  cbn [andb]. rewrite andb_false_r. tidy. now destruct s.
Qed.

Lemma no_source_configuration (g g' : RandomGenerator Engine) :
  same_configuration g g' -> no_source platform g' = no_source platform g.
Proof. intros (H1 & _ & H3 & H4). unfold no_source. now rewrite H1, H3, H4. Qed.

(** Without a source the allocating overload hands out the engine's stream. *)
Lemma GetRandomOctets_no_source (n : nat) (s : State Engine) :
  no_source platform (self s) = true ->
  vector_throws os (trace s) n = None ->
  GetRandomOctets os platform n s = (Returned (pads n s), drawn n s).
Proof.
  intros Hno Hvector. destruct n as [|n].
  - cbn. now rewrite drawn_0.
  - rewrite GetRandomOctets_run by (discriminate || exact Hvector).
    cbv zeta.
    rewrite (SourceRandomOctets_no_source _ s Hno). cbn [fst snd].
    rewrite <- (pads_length (S n) s) at 1.
    rewrite xor_with_zeros by apply pads_octets. reflexivity.
Qed.

Lemma GetRandomOctets_span_no_source (octets : list Z) (s : State Engine) :
  no_source platform (self s) = true ->
  GetRandomOctets_span os platform octets s =
  (xor_with octets (pads (length octets) s), drawn (length octets) s).
Proof.
  intros Hno. destruct octets as [|o octets].
  - cbn. now rewrite drawn_0.
  - rewrite GetRandomOctets_span_run by discriminate. cbv zeta.
    now rewrite (SourceRandomOctets_no_source _ s Hno).
Qed.

Lemma run_call_no_source (c : Call) (s : State Engine) :
  no_source platform (self s) = true ->
  trace (snd (run_call os platform c s)) = trace s.
Proof.
  intros Hno.
  destruct c as [|count|octets| |buffer]; cbn [run_call]; unfold bind.
  - rewrite GetRandomOctet_run. cbv zeta.
    now rewrite (SourceRandomOctets_no_source _ s Hno).
  - destruct (GetRandomOctets_cases os platform count s)
      as [-> | [(e & ->) | ->]]; cbn [snd trace]; auto.
    now rewrite (SourceRandomOctets_no_source _ s Hno).
  - now rewrite GetRandomOctets_span_no_source.
  - now rewrite GetPseudoRandomOctet_run.
  - now rewrite (SourceRandomOctets_no_source _ s Hno).
Qed.

Lemma run_calls_no_source (cs : list Call) :
  forall s : State Engine,
    no_source platform (self s) = true ->
    trace (snd (run_calls os platform cs s)) = trace s.
Proof.
  induction cs as [|c cs IH]; intros s Hno; [reflexivity|].
  cbn [run_calls]. unfold bind.
  pose proof (run_call_no_source c s Hno) as Hq.
  pose proof (no_source_configuration _ _ (run_call_configuration os platform c s))
    as Hc.
  destruct (run_call os platform c s) as [r s1]. cbn [snd] in *.
  specialize (IH s1 ltac:(congruence)).
  destruct (run_calls os platform cs s1) as [rs s2]. unfold ret.
  cbn [snd] in *. congruence.
Qed.

(** X1.  An object with nothing to read from — pseudo-random-only mode, a
    build without an operating-system branch, or a POSIX build on which
    neither descriptor is held — never calls the system: the reader returns
    0 with the buffer, the object and the history as they were, and no
    sequence of member-function calls adds to the history or changes that
    the object has no source. *)
Theorem no_source_never_calls_the_system
    (cs : list Call) (buffer : list Z) (s : State Engine) :
  no_source platform (self s) = true ->
  SourceRandomOctets os platform buffer s = (0, buffer, s)
  /\ trace (snd (run_calls os platform cs s)) = trace s
  /\ no_source platform (self (snd (run_calls os platform cs s))) = true.
Proof.
  intros Hno. split; [now apply SourceRandomOctets_no_source|].
  split; [now apply run_calls_no_source|].
  now rewrite (no_source_configuration _ _
                 (run_calls_configuration os platform cs s)).
Qed.

(** X2.  Without a source a bulk request can be split: when the vectors
    of [m], of [n] and of [m + n] octets can be constructed, asking for [m]
    octets and then for [n] returns, concatenated, what one request for
    [m + n] returns, and leaves the same state. *)
Theorem bulk_request_splits_without_a_source (m n : nat) (s : State Engine) :
  no_source platform (self s) = true ->
  vector_throws os (trace s) m = None ->
  vector_throws os (trace s) n = None ->
  vector_throws os (trace s) (m + n) = None ->
  exists a s1 b s2,
    GetRandomOctets os platform m s = (Returned a, s1)
    /\ GetRandomOctets os platform n s1 = (Returned b, s2)
    /\ GetRandomOctets os platform (m + n) s = (Returned (a ++ b), s2).
Proof.
  intros Hno Hm Hn Hmn.
  exists (pads m s), (drawn m s), (pads n (drawn m s)), (drawn n (drawn m s)).
  rewrite !GetRandomOctets_no_source; try assumption.
  now rewrite pads_add, drawn_add.
Qed.

(** X3.  When its vector can be constructed, the allocating overload for
    [n] octets is the span overload on a buffer of [n] zero octets: same
    octets, same engine, same system calls, in either mode, on every
    platform, whatever the system answers.  When the constructor throws, the
    allocating overload leaves with the exception and the state untouched. *)
Theorem span_overload_on_zeros_is_the_allocating_overload
    (n : nat) (s : State Engine) :
  (vector_throws os (trace s) n = None ->
   GetRandomOctets os platform n s =
   (Returned (fst (GetRandomOctets_span os platform (repeat 0 n) s)),
    snd (GetRandomOctets_span os platform (repeat 0 n) s)))
  /\ (forall e, vector_throws os (trace s) n = Some e ->
        GetRandomOctets os platform n s = (Thrown e, s)).
Proof.
  split; [|intros e; apply GetRandomOctets_throws].
  intros Hvector. destruct n as [|n]; [reflexivity|].
  rewrite GetRandomOctets_span_run by discriminate.
  rewrite GetRandomOctets_run by (discriminate || exact Hvector).
  cbv zeta. now rewrite repeat_length.
Qed.

(** X4.  Without a source the span overload undoes itself: run on its own
    output by an object whose engine is in the state the first run started
    from, it gives back the caller's octets. *)
Theorem span_overload_round_trip_without_a_source
    (octets : list Z) (s s' : State Engine) :
  no_source platform (self s) = true ->
  no_source platform (self s') = true ->
  random_engine (self s') = random_engine (self s) ->
  distribution (self s') = distribution (self s) ->
  Forall is_octet octets ->
  fst (GetRandomOctets_span os platform
         (fst (GetRandomOctets_span os platform octets s)) s') = octets.
Proof.
  intros Hno Hno' He Hd Hoct.
  rewrite (GetRandomOctets_span_no_source octets s Hno). cbn [fst].
  rewrite GetRandomOctets_span_no_source by exact Hno'. cbn [fst].
  unfold pads. rewrite He, Hd.
  rewrite xor_with_length by now rewrite draws_length.
  apply xor_with_involutive; auto using draws_length, draws_octets.
Qed.

(** Every call leaves the engine where one draw per octet it handed out
    leaves it. *)
Lemma run_call_engine (c : Call) (s : State Engine) :
  random_engine (self (snd (run_call os platform c s))) =
  engine_after (distribution (self s))
               (handed_out c (fst (run_call os platform c s)))
               (random_engine (self s)).
Proof.
  destruct c as [|count|octets| |buffer]; cbn [run_call]; unfold bind.
  - now rewrite GetRandomOctet_run.
  - destruct (GetRandomOctets_cases os platform count s)
      as [-> | [(e & ->) | ->]]; cbn [fst snd handed_out]; try reflexivity.
    rewrite xor_with_length;
      rewrite ?pads_length, ?SourceRandomOctets_length, ?repeat_length;
      reflexivity.
  - destruct octets as [|o octets]; [reflexivity|].
    rewrite GetRandomOctets_span_run by discriminate. cbv zeta.
    unfold ret. cbn [fst snd handed_out].
    rewrite xor_with_length;
      rewrite ?pads_length, ?SourceRandomOctets_length; reflexivity.
  - now rewrite GetPseudoRandomOctet_run.
  - pose proof (SourceRandomOctets_self os platform buffer s) as Hself.
    destruct (SourceRandomOctets os platform buffer s) as [[k b] s1].
    unfold ret. cbn [fst snd handed_out] in *. now rewrite Hself.
Qed.

(** X5.  The position of the engine in its stream counts the octets handed
    out: after any sequence of calls, on any platform and whatever the
    system answered, the engine has been invoked once per octet that
    [GetRandomOctet], [GetRandomOctets] (either overload) and
    [GetPseudoRandomOctet] returned — none for a call that left with an
    exception — and not at all by [SourceRandomOctets]. *)
Theorem engine_position_counts_the_octets_handed_out (cs : list Call) :
  forall s : State Engine,
    random_engine (self (snd (run_calls os platform cs s))) =
    engine_after (distribution (self s))
                 (handed_out_all cs (fst (run_calls os platform cs s)))
                 (random_engine (self s)).
Proof.
  induction cs as [|c cs IH]; intros s; [reflexivity|].
  cbn [run_calls]. unfold bind.
  pose proof (run_call_engine c s) as He.
  pose proof (run_call_configuration os platform c s) as (_ & Hd & _).
  destruct (run_call os platform c s) as [r s1]. cbn [fst snd] in *.
  specialize (IH s1).
  destruct (run_calls os platform cs s1) as [rs s2]. unfold ret.
  cbn [fst snd handed_out_all] in *.
  rewrite IH, He, Hd. symmetry. apply engine_after_add.
Qed.

End Unsourced.

(** ** What the reader asks of the system *)

Section Requests.

Context {Engine : Type} `{RandomLib : StdRandom Engine}.
Variable os : OS.
Variable platform : Platform.

(** The requests one call of the reader makes. *)
Lemma SourceRandomOctets_requests (buffer : list Z) (s : State Engine) :
  exists evs,
    trace (snd (SourceRandomOctets os platform buffer s)) = trace s ++ evs
    /\ forallb (request_in_bounds (self s) (length buffer)) evs = true
    /\ (length evs <= match platform with
                      | Posix => 2 | Win32 => 1 | Other => 0
                      end)%nat
    /\ (platform = Posix -> forallb is_read evs = true).
Proof.
  destruct (Nat.eqb (length buffer) 0 || pseudo_random_only (self s)) eqn:E.
  { rewrite (SourceRandomOctets_skip _ _ _ _ E). exists [].
    cbn [snd]. rewrite app_nil_r. repeat split; auto.
    destruct platform; simpl; lia. }
  rewrite (SourceRandomOctets_active _ _ _ _ E).
  apply orb_false_iff in E. destruct E as [Hne _].
  apply Nat.eqb_neq in Hne.
  destruct platform.
  - rewrite SourceRandomOctets_posix_run. cbv zeta. cbn [snd trace].
    set (n := length buffer) in *.
    set (a1 := os_read os (trace s) (random_fd (self s)) n).
    set (k1 := if (0 <=? random_fd (self s)) && (0 <? fst a1)
               then fst a1 else 0).
    set (second := (k1 <? Z.of_nat n) && (0 <=? pseudo_random_fd (self s))).
    assert (Hk1 : 0 <= k1).
    { subst k1. destruct (0 <=? _); cbn [andb]; [|lia].
      destruct (Z.ltb_spec 0 (fst a1)); lia. }
    exists ((if 0 <=? random_fd (self s)
             then [EvRead (random_fd (self s)) 0 n (fst a1)] else [])
            ++ (if second
                then [EvRead (pseudo_random_fd (self s)) (Z.to_nat k1)
                        (n - Z.to_nat k1)
                        (fst (os_read os
                                (if 0 <=? random_fd (self s)
                                 then trace s
                                      ++ [EvRead (random_fd (self s)) 0 n
                                                 (fst a1)]
                                 else trace s)
                                (pseudo_random_fd (self s))
                                (n - Z.to_nat k1)))]
                else [])).
    destruct (0 <=? random_fd (self s)) eqn:Efd1;
      destruct second eqn:Esecond;
      (split; [rewrite ?app_nil_r, <- ?app_assoc; reflexivity|]);
      (split; [|split; [simpl; lia | intros _; reflexivity]]);
      cbn [app forallb request_in_bounds]; rewrite ?Efd1, ?Z.eqb_refl;
      cbn [andb orb];
      try (unfold second in Esecond;
           apply andb_true_iff in Esecond; destruct Esecond as [Hlt Hfd2];
           apply Z.ltb_lt in Hlt; rewrite Hfd2, orb_true_r; cbn [andb]);
      repeat match goal with
             | |- _ && _ = true => apply andb_true_iff; split
             | |- Nat.ltb _ _ = true => apply Nat.ltb_lt; lia
             | |- Nat.eqb _ _ = true => apply Nat.eqb_eq; lia
             | |- true = true => reflexivity
             end.
  - rewrite SourceRandomOctets_win32_run. cbv zeta. cbn [snd trace].
    eexists; split; [reflexivity|].
    split; [|split; [simpl; lia | discriminate]].
    cbn [forallb request_in_bounds]. rewrite andb_true_r.
    unfold uint32.
    pose proof (Z.mod_pos_bound (Z.of_nat (length buffer)) (2 ^ 32) ltac:(lia)).
    pose proof (Z.mod_le (Z.of_nat (length buffer)) (2 ^ 32) ltac:(lia) ltac:(lia)).
    apply andb_true_iff. split; [apply Z.leb_le | apply Z.leb_le]; lia.
  - exists []. cbn [snd]. rewrite app_nil_r. repeat split; auto.
Qed.

End Requests.

(** ** Requests over calls and lifetimes *)

Lemma device_events_app (h1 h2 : Trace) :
  device_events (h1 ++ h2) = device_events h1 ++ device_events h2.
Proof. apply filter_app. Qed.

Lemma device_events_requests (evs : Trace) :
  forallb is_request evs = true -> device_events evs = evs.
Proof.
  induction evs as [|ev evs IH]; [reflexivity|].
  cbn [forallb]. intros H. apply andb_true_iff in H. destruct H as [Hev H].
  unfold device_events in *. cbn [filter].
  destruct ev; try discriminate; cbn [is_device_event]; now rewrite IH.
Qed.

Lemma forallb_weaken {A} (p q : A -> bool) (l : list A) :
  (forall x, p x = true -> q x = true) ->
  forallb p l = true -> forallb q l = true.
Proof.
  intros Hpq. rewrite !forallb_forall. auto.
Qed.

Section Calls.

Context {Engine : Type} `{RandomLib : StdRandom Engine}.
Variable os : OS.
Variable platform : Platform.

Lemma request_in_bounds_is_request (g : RandomGenerator Engine) n ev :
  request_in_bounds g n ev = true -> is_request ev = true.
Proof. destruct ev; cbn; auto. Qed.

Lemma request_in_bounds_configuration (g g' : RandomGenerator Engine) n ev :
  same_configuration g g' ->
  request_in_bounds g' n ev = request_in_bounds g n ev.
Proof.
  intros (_ & _ & H3 & H4). destruct ev; cbn; auto. now rewrite H3, H4.
Qed.

(** The requests one member-function call makes. *)
Lemma run_call_requests (c : Call) (s : State Engine) :
  exists evs,
    trace (snd (run_call os platform c s)) = trace s ++ evs
    /\ forallb (request_in_bounds (self s) (buffer_of_call c)) evs = true
    /\ (length evs <= match platform with
                      | Posix => 2 | Win32 => 1 | Other => 0
                      end)%nat
    /\ (platform = Posix -> forallb is_read evs = true).
Proof.
  assert (Hnone : exists evs : Trace,
             trace s = trace s ++ evs
             /\ forallb (request_in_bounds (self s) (buffer_of_call c)) evs
                = true
             /\ (length evs <= match platform with
                               | Posix => 2 | Win32 => 1 | Other => 0
                               end)%nat
             /\ (platform = Posix -> forallb is_read evs = true)).
  { exists []. rewrite app_nil_r. repeat split; auto.
    destruct platform; simpl; lia. }
  destruct c as [|count|octets| |buffer]; cbn [run_call buffer_of_call] in *;
    unfold bind.
  - rewrite GetRandomOctet_run. cbv zeta. cbn [snd trace].
    apply (SourceRandomOctets_requests os platform [0] s).
  - destruct (GetRandomOctets_cases os platform count s)
      as [-> | [(e & ->) | ->]]; cbn [snd trace]; try exact Hnone.
    pose proof (SourceRandomOctets_requests os platform
                  (repeat 0 count) s) as H.
    now rewrite repeat_length in H.
  - destruct octets as [|o octets]; [exact Hnone|].
    rewrite GetRandomOctets_span_run by discriminate. cbv zeta.
    cbn [snd trace].
    apply (SourceRandomOctets_requests os platform (o :: octets) s).
  - rewrite GetPseudoRandomOctet_run. exact Hnone.
  - pose proof (SourceRandomOctets_requests os platform buffer s) as H.
    destruct (SourceRandomOctets os platform buffer s) as [[k b] s1].
    exact H.
Qed.

Lemma run_calls_requests (cs : list Call) :
  forall s : State Engine,
    exists evs,
      trace (snd (run_calls os platform cs s)) = trace s ++ evs
      /\ forallb is_request evs = true
      /\ (length evs <= match platform with
                        | Posix => 2 | Win32 => 1 | Other => 0
                        end * length cs)%nat
      /\ (platform = Posix -> forallb is_read evs = true).
Proof.
  induction cs as [|c cs IH]; intros s.
  - exists []. cbn. rewrite app_nil_r. repeat split; auto. lia.
  - cbn [run_calls]. unfold bind.
    destruct (run_call_requests c s) as (ev1 & E1 & B1 & L1 & R1).
    destruct (run_call os platform c s) as [r s1]. cbn [snd] in *.
    destruct (IH s1) as (ev2 & E2 & B2 & L2 & R2).
    destruct (run_calls os platform cs s1) as [rs s2]. unfold ret.
    cbn [snd] in *.
    exists (ev1 ++ ev2). rewrite E2, E1, <- app_assoc.
    split; [reflexivity|]. rewrite forallb_app, length_app.
    split; [|split].
    + rewrite B2, andb_true_r.
      revert B1. apply forallb_weaken. intros ev.
      apply request_in_bounds_is_request.
    + cbn [length]. lia.
    + intros Hp. now rewrite forallb_app, (R1 Hp), (R2 Hp).
Qed.

(** X6.  Every request a member function makes stays inside the buffer it
    is for.  A [read] is issued only on a descriptor the object holds, for at
    least one octet, and ends exactly at the end of the buffer (the buffer of
    one octet for [GetRandomOctet], of [count] for the allocating overload,
    the caller's for the span overload and the reader);
    [BCryptGenRandom] is asked for no more than the buffer length. *)
Theorem requests_stay_inside_the_buffer (c : Call) (s : State Engine) :
  exists evs,
    trace (snd (run_call os platform c s)) = trace s ++ evs
    /\ forallb (request_in_bounds (self s) (buffer_of_call c)) evs = true.
Proof.
  destruct (run_call_requests c s) as (evs & E & B & _).
  exists evs. split; assumption.
Qed.

(** X7.  A member function makes at most two system calls on POSIX, at most
    one on Windows and none elsewhere, however many octets it is asked for;
    a sequence of calls adds to the history nothing but such requests, at
    most that many per call. *)
Theorem each_call_costs_at_most_two_requests
    (cs : list Call) (s : State Engine) :
  exists evs,
    trace (snd (run_calls os platform cs s)) = trace s ++ evs
    /\ forallb is_request evs = true
    /\ (length evs <= match platform with
                      | Posix => 2 | Win32 => 1 | Other => 0
                      end * length cs)%nat.
Proof.
  destruct (run_calls_requests cs s) as (evs & E & B & L & _).
  exists evs. repeat split; assumption.
Qed.

End Calls.

(** ** The reader's count *)

Section Counts.

Context {Engine : Type} `{RandomLib : StdRandom Engine}.
Variable os : OS.
Variable platform : Platform.

(** What the two POSIX reads obtain, under the bound on [read]. *)
Lemma posix_counts (buffer : list Z) (s : State Engine) :
  read_bounded os ->
  let g := self s in
  let n := length buffer in
  let a1 := os_read os (trace s) (random_fd g) n in
  let k1 := if (0 <=? random_fd g) && (0 <? fst a1) then fst a1 else 0 in
  let h1 := if 0 <=? random_fd g
            then trace s ++ [EvRead (random_fd g) 0 n (fst a1)]
            else trace s in
  let second := (k1 <? Z.of_nat n) && (0 <=? pseudo_random_fd g) in
  let a2 := os_read os h1 (pseudo_random_fd g) (n - Z.to_nat k1) in
  let k2 := if second && (0 <? fst a2) then fst a2 else 0 in
  0 <= k1 <= Z.of_nat n /\ 0 <= k2 /\ k1 + k2 <= Z.of_nat n.
Proof.
  intros Hread. cbv zeta.
  set (n := length buffer).
  set (a1 := os_read os (trace s) (random_fd (self s)) n).
  set (k1 := if (0 <=? random_fd (self s)) && (0 <? fst a1)
             then fst a1 else 0).
  set (h1 := if 0 <=? random_fd (self s) then _ else _).
  set (second := (k1 <? Z.of_nat n) && (0 <=? pseudo_random_fd (self s))).
  set (a2 := os_read os h1 _ _).
  assert (Hk1 : 0 <= k1 <= Z.of_nat n).
  { subst k1. destruct (0 <=? random_fd (self s)); cbn [andb]; [|lia].
    destruct (Z.ltb_spec 0 (fst a1)); [|lia].
    pose proof (Hread (trace s) (random_fd (self s)) n) as Hb.
    fold a1 in Hb. lia. }
  split; [exact Hk1|].
  destruct second eqn:Esecond; cbn [andb]; [|lia].
  destruct (Z.ltb_spec 0 (fst a2)); [|lia].
  pose proof (Hread h1 (pseudo_random_fd (self s)) (n - Z.to_nat k1)%nat) as Hb.
  fold a2 in Hb. lia.
Qed.

Lemma SourceRandomOctets_count_le (buffer : list Z) (s : State Engine) :
  read_bounded os ->
  fst (fst (SourceRandomOctets os platform buffer s))
  <= Z.of_nat (length buffer).
Proof.
  intros Hread.
  destruct (Nat.eqb (length buffer) 0 || pseudo_random_only (self s)) eqn:E.
  { rewrite (SourceRandomOctets_skip _ _ _ _ E). cbn [fst]. lia. }
  rewrite (SourceRandomOctets_active _ _ _ _ E). destruct platform.
  - rewrite SourceRandomOctets_posix_run. cbv zeta. cbn [fst].
    pose proof (posix_counts buffer s Hread) as H. cbv zeta in H. lia.
  - rewrite SourceRandomOctets_win32_run. cbv zeta. cbn [fst].
    destruct (_ =? STATUS_SUCCESS); lia.
  - cbn [fst]. lia.
Qed.

(** X8.  The contract of the reader on every platform and in either mode,
    given a [read] that honours its bound: the count lies between 0 and the
    buffer length; the buffer keeps its length; every position at or past
    the count holds the caller's octet; the object is left as it was; and
    the history grows by requests only. *)
Theorem reader_reports_a_prefix_and_leaves_the_rest
    (buffer : list Z) (s : State Engine) :
  read_bounded os ->
  let r := SourceRandomOctets os platform buffer s in
  0 <= fst (fst r) <= Z.of_nat (length buffer)
  /\ length (snd (fst r)) = length buffer
  /\ (forall i, (Z.to_nat (fst (fst r)) <= i)%nat ->
        nth i (snd (fst r)) 0 = nth i buffer 0)
  /\ self (snd r) = self s
  /\ exists evs, trace (snd r) = trace s ++ evs
                 /\ forallb is_request evs = true.
Proof.
  intros Hread. cbv zeta.
  split; [split; [apply SourceRandomOctets_count_nonneg
                 | now apply SourceRandomOctets_count_le]|].
  split; [apply SourceRandomOctets_length|].
  split; [intros i Hi; now apply SourceRandomOctets_untouched|].
  split; [apply SourceRandomOctets_self|].
  destruct (SourceRandomOctets_requests os platform buffer s)
    as (evs & E & B & _).
  exists evs. split; [exact E|].
  revert B. apply forallb_weaken. intros ev.
  apply request_in_bounds_is_request.
Qed.

End Counts.

Section Fallback.

Context {Engine : Type} `{RandomLib : StdRandom Engine}.
Variable os : OS.

(** X9.  The fallback makes up any shortfall of the true-random device.  On
    POSIX in mixed mode, when the pseudo-random descriptor is held and reads
    from it return all that is asked, the reader reports the whole buffer
    length whatever the true-random device delivers (within the bound on
    [read]) — what the test of the operating-system sources expects for its
    ten octets. *)
Theorem posix_fallback_fills_the_buffer (buffer : list Z) (s : State Engine) :
  read_bounded os ->
  pseudo_random_only (self s) = false ->
  0 <= pseudo_random_fd (self s) ->
  (forall h count,
     fst (os_read os h (pseudo_random_fd (self s)) count) = Z.of_nat count) ->
  fst (fst (SourceRandomOctets os Posix buffer s)) = Z.of_nat (length buffer).
Proof.
  intros Hread Hmixed Hfd Hfull.
  destruct buffer as [|b buffer].
  { now rewrite SourceRandomOctets_skip. }
  rewrite SourceRandomOctets_active by now rewrite Hmixed.
  rewrite SourceRandomOctets_posix_run. cbv zeta. cbn [fst].
  pose proof (posix_counts os (b :: buffer) s Hread) as H. cbv zeta in H.
  set (n := length (b :: buffer)) in *.
  set (a1 := os_read os (trace s) (random_fd (self s)) n) in *.
  set (k1 := if (0 <=? random_fd (self s)) && (0 <? fst a1)
             then fst a1 else 0) in *.
  rewrite Hfull in *.
  destruct (Z.leb_spec 0 (pseudo_random_fd (self s))); [|lia].
  rewrite andb_true_r in *.
  destruct (Z.ltb_spec k1 (Z.of_nat n)); cbn [andb] in *; [|lia].
  destruct (Z.ltb_spec 0 (Z.of_nat (n - Z.to_nat k1))); lia.
Qed.

End Fallback.

(** ** Descriptors over a lifetime *)

Section Descriptors.

Context {Engine : Type} `{RandomLib : StdRandom Engine}.
Variable os : OS.
Variable platform : Platform.

(** What construction does to the devices. *)
Lemma RandomGenerator_ctor_devices (flag : bool) (h : Trace) :
  let h0 := h ++ [EvClockNow (os_clock_now os h)] in
  let fd1 := os_open os h0 "/dev/random" [O_NONBLOCK; O_RDONLY; O_CLOEXEC] in
  let h1 := h0 ++ [EvOpen "/dev/random" [O_NONBLOCK; O_RDONLY; O_CLOEXEC] fd1] in
  let fd2 := os_open os h1 "/dev/urandom" [O_NONBLOCK; O_RDONLY; O_CLOEXEC] in
  let opens := match platform, flag with Posix, false => true | _, _ => false end in
  let born := RandomGenerator_ctor os platform flag h in
  device_events (trace born) =
    device_events h
    ++ (if opens
        then [EvOpen "/dev/random" [O_NONBLOCK; O_RDONLY; O_CLOEXEC] fd1;
              EvOpen "/dev/urandom" [O_NONBLOCK; O_RDONLY; O_CLOEXEC] fd2]
        else [])
  /\ pseudo_random_only (self born) = flag
  /\ random_fd (self born) = (if opens then fd1 else -1)
  /\ pseudo_random_fd (self born) = (if opens then fd2 else -1).
Proof.
  cbv zeta. rewrite RandomGenerator_ctor_run. cbv zeta.
  cbn [self trace pseudo_random_only random_fd pseudo_random_fd].
  split; [|auto].
  destruct platform, flag; cbv beta iota;
    destruct (os_random_device os _);
    rewrite !device_events_app; cbn [device_events filter is_device_event];
    rewrite ?app_nil_r, <- ?app_assoc; reflexivity.
Qed.

(** What destruction adds to the history. *)
Lemma RandomGenerator_dtor_closes (s : State Engine) :
  trace (snd (RandomGenerator_dtor platform s)) =
  trace s ++ match platform with
             | Posix => closes_of (self s)
             | _ => []
             end.
Proof.
  rewrite RandomGenerator_dtor_run. cbn [snd trace]. f_equal.
  destruct platform; auto.
  unfold closes_of, held. rewrite map_app.
  destruct (0 <=? random_fd (self s)), (0 <=? pseudo_random_fd (self s));
    reflexivity.
Qed.

Lemma closes_of_requests (g : RandomGenerator Engine) :
  device_events (closes_of g) = closes_of g.
Proof.
  unfold closes_of, held.
  destruct (0 <=? random_fd g), (0 <=? pseudo_random_fd g); reflexivity.
Qed.

Lemma closes_of_configuration (g g' : RandomGenerator Engine) :
  same_configuration g g' -> closes_of g' = closes_of g.
Proof. intros (_ & _ & H3 & H4). unfold closes_of. now rewrite H3, H4. Qed.

(** X10.  The descriptors over a lifetime.  Construction in mixed mode on
    POSIX opens [/dev/random] and then [/dev/urandom], each non-blocking,
    read-only and close-on-exec, the second whatever the first returned, and
    opens nothing in pseudo-random-only mode or on another platform.  The
    calls in between add requests for octets only.  Destruction closes each
    descriptor that [open] returned non-negative, once, first-opened first,
    after the last request, and closes nothing else. *)
Theorem descriptors_are_opened_first_and_closed_once_last
    (flag : bool) (cs : list Call) (h : Trace) :
  let h0 := h ++ [EvClockNow (os_clock_now os h)] in
  let fd1 := os_open os h0 "/dev/random" [O_NONBLOCK; O_RDONLY; O_CLOEXEC] in
  let h1 := h0 ++ [EvOpen "/dev/random" [O_NONBLOCK; O_RDONLY; O_CLOEXEC] fd1] in
  let fd2 := os_open os h1 "/dev/urandom" [O_NONBLOCK; O_RDONLY; O_CLOEXEC] in
  let opens := match platform, flag with Posix, false => true | _, _ => false end in
  exists requests,
    forallb is_request requests = true
    /\ device_events (trace (snd (lifetime os platform flag cs h))) =
       device_events h
       ++ (if opens
           then [EvOpen "/dev/random" [O_NONBLOCK; O_RDONLY; O_CLOEXEC] fd1;
                 EvOpen "/dev/urandom" [O_NONBLOCK; O_RDONLY; O_CLOEXEC] fd2]
           else [])
       ++ requests
       ++ (if opens then map EvClose (held fd1 ++ held fd2) else []).
Proof.
  cbv zeta.
  destruct (RandomGenerator_ctor_devices flag h) as (Hdev & _ & Hfd1 & Hfd2).
  set (born := RandomGenerator_ctor os platform flag h) in *.
  destruct (run_calls_requests os platform cs born) as (requests & E & B & _).
  pose proof (run_calls_configuration os platform cs born) as Hc.
  exists requests. split; [exact B|].
  match goal with
  | |- _ = _ ++ _ ++ _ ++ ?closed =>
      assert (Hcl : device_events
                      match platform return list Event with
                      | Posix => closes_of (self born)
                      | _ => []
                      end = closed)
  end.
  { destruct platform; [|now destruct flag..].
    rewrite closes_of_requests. unfold closes_of. rewrite Hfd1, Hfd2.
    now destruct flag. }
  unfold lifetime, bind. fold born.
  destruct (run_calls os platform cs born) as [rs used]. cbn [snd] in *.
  pose proof (RandomGenerator_dtor_closes used) as Hd.
  destruct (RandomGenerator_dtor platform used) as [[] gone]. unfold ret.
  cbn [snd] in *. rewrite Hd, E.
  rewrite (closes_of_configuration _ _ Hc).
  rewrite !device_events_app, Hcl, Hdev, (device_events_requests _ B).
  now rewrite <- !app_assoc.
Qed.

(** X11.  A device that cannot be opened is not an error.  When neither
    [open] succeeds, a mixed-mode object on POSIX lives its whole life
    without a read or a close: the two failed opens are all the history
    holds of the devices. *)
Theorem failed_opens_are_not_fatal (cs : list Call) (h : Trace) :
  platform = Posix ->
  (forall h path flags, os_open os h path flags < 0) ->
  let h0 := h ++ [EvClockNow (os_clock_now os h)] in
  let fd1 := os_open os h0 "/dev/random" [O_NONBLOCK; O_RDONLY; O_CLOEXEC] in
  let h1 := h0 ++ [EvOpen "/dev/random" [O_NONBLOCK; O_RDONLY; O_CLOEXEC] fd1] in
  let fd2 := os_open os h1 "/dev/urandom" [O_NONBLOCK; O_RDONLY; O_CLOEXEC] in
  let born := RandomGenerator_ctor os platform false h in
  no_source platform (self born) = true
  /\ device_events (trace (snd (lifetime os platform false cs h))) =
     device_events h
     ++ [EvOpen "/dev/random" [O_NONBLOCK; O_RDONLY; O_CLOEXEC] fd1;
         EvOpen "/dev/urandom" [O_NONBLOCK; O_RDONLY; O_CLOEXEC] fd2].
Proof.
  intros Hposix Hfail. cbv zeta.
  destruct (RandomGenerator_ctor_devices false h) as (Hdev & Hflag & Hfd1 & Hfd2).
  set (born := RandomGenerator_ctor os platform false h) in *.
  rewrite Hposix in Hdev, Hfd1, Hfd2. cbv beta iota in Hdev, Hfd1, Hfd2.
  assert (Hno : no_source platform (self born) = true).
  { unfold no_source. rewrite Hflag, Hposix, Hfd1, Hfd2. cbn [orb].
    apply andb_true_iff. split; apply Z.ltb_lt; apply Hfail. }
  split; [exact Hno|].
  pose proof (run_calls_no_source os platform cs born Hno) as Hquiet.
  pose proof (run_calls_configuration os platform cs born) as Hc.
  unfold lifetime, bind. fold born.
  destruct (run_calls os platform cs born) as [rs used]. cbn [snd] in *.
  pose proof (RandomGenerator_dtor_closes used) as Hd.
  destruct (RandomGenerator_dtor platform used) as [[] gone]. unfold ret.
  cbn [snd] in *.
  rewrite Hd, Hquiet, (closes_of_configuration _ _ Hc), Hposix.
  unfold closes_of, held. rewrite Hfd1, Hfd2.
  destruct (Z.leb_spec 0 (os_open os (h ++ [EvClockNow (os_clock_now os h)])
                            "/dev/random" [O_NONBLOCK; O_RDONLY; O_CLOEXEC]))
    as [Hge|_]; [specialize (Hfail (h ++ [EvClockNow (os_clock_now os h)])
                               "/dev/random"%string
                               [O_NONBLOCK; O_RDONLY; O_CLOEXEC]); lia|].
  match goal with
  | |- context [0 <=? os_open os ?hh ?pp ?ff] =>
      destruct (Z.leb_spec 0 (os_open os hh pp ff)) as [Hge|_];
        [specialize (Hfail hh pp ff); lia|]
  end.
  cbn [app map]. now rewrite app_nil_r.
Qed.

End Descriptors.

(** ** The further properties at concrete inputs *)

(** X1 on a build without an operating-system branch, in mixed mode. *)
Lemma no_source_never_calls_the_system_witness :
  no_source Other (self (RandomGenerator_ctor os_short Other false [])) = true
  /\ trace (snd (run_calls os_short Other every_call
                   (RandomGenerator_ctor os_short Other false [])))
     = trace (RandomGenerator_ctor os_short Other false [])
  /\ SourceRandomOctets os_short Other [7; 8]
       (RandomGenerator_ctor os_short Other false [])
     = (0, [7; 8], RandomGenerator_ctor os_short Other false []).
Proof.
  destruct (no_source_never_calls_the_system
              os_short Other every_call [7; 8]
              (RandomGenerator_ctor os_short Other false []) eq_refl)
    as (Hskip & Hquiet & _).
  split; [reflexivity|]. split; [exact Hquiet | exact Hskip].
Defined.

(** X2 on a POSIX object whose devices could not be opened: two octets and
    then three are the five of one request. *)
Lemma bulk_request_splits_without_a_source_witness :
  no_source Posix (self (RandomGenerator_ctor os_no_devices Posix false []))
  = true
  /\ vector_throws os_no_devices
       (trace (RandomGenerator_ctor os_no_devices Posix false [])) 2 = None
  /\ vector_throws os_no_devices
       (trace (RandomGenerator_ctor os_no_devices Posix false [])) 3 = None
  /\ vector_throws os_no_devices
       (trace (RandomGenerator_ctor os_no_devices Posix false [])) (2 + 3)
     = None
  /\ exists a s1 b,
       GetRandomOctets os_no_devices Posix 2
         (RandomGenerator_ctor os_no_devices Posix false [])
       = (Returned a, s1)
       /\ fst (GetRandomOctets os_no_devices Posix 3 s1) = Returned b
       /\ fst (GetRandomOctets os_no_devices Posix (2 + 3)
                 (RandomGenerator_ctor os_no_devices Posix false []))
          = Returned (a ++ b).
Proof.
  split; [reflexivity|]. split; [reflexivity|]. split; [reflexivity|].
  split; [reflexivity|].
  destruct (bulk_request_splits_without_a_source
              os_no_devices Posix 2 3
              (RandomGenerator_ctor os_no_devices Posix false [])
              eq_refl eq_refl eq_refl eq_refl)
    as (a & s1 & b & s2 & Ea & Eb & Eab).
  exists a, s1, b. split; [exact Ea|].
  split; [now rewrite Eb | now rewrite Eab].
Defined.

(** X3 on a POSIX system with both devices, for three octets. *)
Lemma span_overload_on_zeros_is_the_allocating_overload_witness :
  vector_throws os_short (trace mixed_posix) 3 = None
  /\ GetRandomOctets os_short Posix 3 mixed_posix
     = (Returned (fst (GetRandomOctets_span os_short Posix (repeat 0 3)
                         mixed_posix)),
        snd (GetRandomOctets_span os_short Posix (repeat 0 3) mixed_posix)).
Proof.
  split; [reflexivity|].
  exact (proj1 (span_overload_on_zeros_is_the_allocating_overload
                  os_short Posix 3 mixed_posix) eq_refl).
Defined.

(** X4 on two pseudo-random-only objects seeded alike. *)
Lemma span_overload_round_trip_without_a_source_witness :
  no_source Posix (self prng_only) = true
  /\ Forall is_octet [1; 2; 255]
  /\ fst (GetRandomOctets_span os_absent Posix
            (fst (GetRandomOctets_span os_absent Posix [1; 2; 255] prng_only))
            prng_only) = [1; 2; 255].
Proof.
  assert (Hoct : Forall is_octet [1; 2; 255])
    by (repeat constructor; unfold is_octet; lia).
  split; [reflexivity|]. split; [exact Hoct|].
  exact (span_overload_round_trip_without_a_source
           os_absent Posix [1; 2; 255] prng_only prng_only
           eq_refl eq_refl eq_refl eq_refl Hoct).
Defined.

(** X8 on a POSIX system with both devices, for five octets. *)
Lemma reader_reports_a_prefix_and_leaves_the_rest_witness :
  read_bounded os_short
  /\ 0 <= fst (fst (SourceRandomOctets os_short Posix [0; 0; 0; 0; 0]
                      mixed_posix)) <= 5
  /\ self (snd (SourceRandomOctets os_short Posix [0; 0; 0; 0; 0] mixed_posix))
     = self mixed_posix.
Proof.
  split; [exact os_short_read_bounded|].
  destruct (reader_reports_a_prefix_and_leaves_the_rest
              os_short Posix [0; 0; 0; 0; 0] mixed_posix os_short_read_bounded)
    as (Hcount & _ & _ & Hself & _).
  split; [exact Hcount | exact Hself].
Defined.

(** X9 on a POSIX system whose true-random device is short: the ten octets
    of the test are all sourced. *)
Lemma posix_fallback_fills_the_buffer_witness :
  read_bounded os_short
  /\ pseudo_random_only (self mixed_posix) = false
  /\ 0 <= pseudo_random_fd (self mixed_posix)
  /\ (forall h count,
        fst (os_read os_short h (pseudo_random_fd (self mixed_posix)) count)
        = Z.of_nat count)
  /\ fst (fst (SourceRandomOctets os_short Posix (repeat 0 10) mixed_posix))
     = 10.
Proof.
  assert (Hfd : 0 <= pseudo_random_fd (self mixed_posix))
    by (vm_compute; discriminate).
  assert (Hfull : forall h count,
             fst (os_read os_short h (pseudo_random_fd (self mixed_posix)) count)
             = Z.of_nat count)
    by (intros h count; reflexivity).
  split; [exact os_short_read_bounded|]. split; [reflexivity|].
  split; [exact Hfd|]. split; [exact Hfull|].
  exact (posix_fallback_fills_the_buffer
           os_short (repeat 0 10) mixed_posix os_short_read_bounded
           eq_refl Hfd Hfull).
Defined.

(** X11 on a POSIX system on which neither device can be opened. *)
Lemma failed_opens_are_not_fatal_witness :
  Posix = Posix
  /\ (forall h path flags, os_open os_no_devices h path flags < 0)
  /\ device_events
       (trace (snd (@lifetime MT19937.engine _ os_no_devices Posix false
                      every_call [])))
     = [EvOpen "/dev/random" [O_NONBLOCK; O_RDONLY; O_CLOEXEC] (-1);
        EvOpen "/dev/urandom" [O_NONBLOCK; O_RDONLY; O_CLOEXEC] (-1)].
Proof.
  assert (Hfail : forall h path flags, os_open os_no_devices h path flags < 0)
    by (intros; simpl; lia).
  split; [reflexivity|]. split; [exact Hfail|].
  destruct (@failed_opens_are_not_fatal MT19937.engine _ os_no_devices Posix
              every_call [] eq_refl Hfail) as (_ & Hdev).
  exact Hdev.
Defined.

(** ** Requests that do not fit *)

(** A vector of [SIZE_MAX] octets is longer than any the LP64 library
    constructs. *)
Lemma SIZE_MAX_positive : SIZE_MAX <> 0%nat.
Proof.
  intros E.
  assert (H : Z.of_nat SIZE_MAX = 2 ^ 64 - 1)
    by (unfold SIZE_MAX; apply Z2Nat.id; lia).
  rewrite E in H. discriminate H.
Qed.

Lemma vector_of_SIZE_MAX_throws (h : Trace) :
  vector_throws os_absent h SIZE_MAX = Some length_error.
Proof.
  assert (H : Z.of_nat SIZE_MAX = 2 ^ 64 - 1)
    by (unfold SIZE_MAX; apply Z2Nat.id; lia).
  unfold vector_throws.
  destruct (Nat.eqb_spec SIZE_MAX 0) as [E|_];
    [now apply SIZE_MAX_positive in E|].
  cbn [os_vector os_absent]. unfold lp64_vector. rewrite H. reflexivity.
Qed.

(** C1, as stated for every count, fails at [count = SIZE_MAX]: the request
    is not empty, yet the allocating overload returns no octets; it leaves
    with [std::length_error], and the object and the history are as they
    were: no read, no draw. *)
Lemma bulk_request_of_SIZE_MAX_octets_throws :
  SIZE_MAX <> 0%nat
  /\ GetRandomOctets os_absent Posix SIZE_MAX prng_only
     = (Thrown length_error, prng_only)
  /\ ~ (exists out,
          fst (GetRandomOctets os_absent Posix SIZE_MAX prng_only)
          = Returned out
          /\ length out = SIZE_MAX).
Proof.
  pose proof (GetRandomOctets_throws os_absent Posix SIZE_MAX prng_only
                length_error (vector_of_SIZE_MAX_throws _)) as E.
  split; [exact SIZE_MAX_positive|]. split; [exact E|].
  intros (out & Hout & _). rewrite E in Hout. cbn [fst] in Hout.
  discriminate Hout.
Qed.

(** C9, as stated for every count, fails at [n = SIZE_MAX] in
    pseudo-random-only mode: the bulk request leaves with an exception and
    the state untouched, which is not what calls of [GetRandomOctet]
    return. *)
Lemma bulk_of_SIZE_MAX_octets_is_not_repeated_single :
  pseudo_random_only (self prng_only) = true
  /\ fst (GetRandomOctets os_absent Posix SIZE_MAX prng_only)
     <> Returned (fst (GetRandomOctet_times os_absent Posix SIZE_MAX
                         prng_only)).
Proof.
  split; [reflexivity|].
  intros H.
  pose proof (f_equal fst
                (GetRandomOctets_throws os_absent Posix SIZE_MAX prng_only
                   length_error (vector_of_SIZE_MAX_throws _))) as E.
  pose proof (eq_trans (eq_sym E) H) as Hclash.
  discriminate Hclash.
Qed.

(** C7.  On Windows the length handed to [BCryptGenRandom] is the buffer
    length converted to [ULONG].  For a buffer of [2^32 + 3] octets (here
    all [0xFF]) in mixed mode the one call asks for 3 octets; it succeeds,
    the first three positions hold the system's octets, the fourth still
    holds the caller's, and the count returned is [2^32 + 3]: a partial
    fill reported as a full one. *)
Lemma win32_partial_fill_is_reported_as_full :
  let buffer := repeat 0xFF (Z.to_nat (2 ^ 32 + 3)) in
  let r := SourceRandomOctets os_short Win32 buffer mixed_win32 in
  pseudo_random_only (self mixed_win32) = false
  /\ trace (snd r) = trace mixed_win32 ++ [EvBCryptGenRandom 3 STATUS_SUCCESS]
  /\ fst (fst r) = 2 ^ 32 + 3
  /\ nth 2 (snd (fst r)) 0 = 0x72
  /\ nth 3 (snd (fst r)) 0 = 0xFF.
Proof.
  cbv zeta.
  assert (Hmixed : pseudo_random_only (self mixed_win32) = false)
    by reflexivity.
  remember (Z.to_nat (2 ^ 32 + 3)) as N eqn:EN.
  assert (HN : Z.of_nat N = 2 ^ 32 + 3) by (subst N; apply Z2Nat.id; lia).
  clear EN.
  rewrite SourceRandomOctets_active.
  2:{ rewrite Hmixed, repeat_length.
      destruct (Nat.eqb_spec N 0) as [E|_]; [|reflexivity].
      rewrite E in HN. discriminate HN. }
  rewrite SourceRandomOctets_win32_run. cbv zeta.
  rewrite repeat_length, HN.
  change (uint32 (2 ^ 32 + 3)) with 3.
  cbn [os_short os_BCryptGenRandom fst snd].
  rewrite Z.eqb_refl.
  split; [exact Hmixed|]. split; [reflexivity|]. split; [reflexivity|].
  destruct N as [|[|[|[|N]]]]; try (exfalso; cbn in HN; lia).
  split; reflexivity.
Qed.
